(** * Query-subscription consumer: a shallow embedding of
      [sentry/snuba/query_subscriptions/run.py]

    The development follows the Python module closely:
    - [process_message] is the per-message callable (lines 72-108);
    - [QuerySubscriptionStrategyFactory] with [__init__],
      [create_with_partitions] and [shutdown] (lines 28-69);
    - [get_query_subscription_consumer] and [initialize_metrics]
      (lines 111-161).

    Python exceptions become an explicit result type, mutable objects live in
    a heap of locations, and everything observable that a call does to the
    outside (handler calls, log records, spans, commits) is appended to a
    trace. *)

From Stdlib Require Import ZArith.
From stdpp Require Import gmap strings list.

Local Open Scope Z_scope.

(** ** Python values and exceptions *)

Definition bytes := list Byte.byte.

(** The dynamically typed values that can reach the external handler: the
    raw [bytes] of a Kafka payload, or whatever a codec decodes them to. *)
#[warnings="-register-all"]
Inductive PyVal :=
| PyNone
| PyBytes (b : bytes)
| PyStr (s : string)
| PyInt (z : Z)
| PyDict (items : list (string * PyVal)).

(** Exception objects, by class.  [KeyboardInterrupt], [SystemExit] and
    [GeneratorExit] derive from [BaseException] but not from [Exception];
    [OtherException] stands for any further class below [Exception] and
    [OtherBaseException] for any further class that is only below
    [BaseException]. *)
Inductive PyExc :=
| AssertionError
| KeyError (key : string)
| OSError (msg : string)
| PoolClosedError
| OtherException (cls : string)
| KeyboardInterrupt
| SystemExit
| GeneratorExit
| OtherBaseException (cls : string).

(** [isinstance(e, Exception)]. *)
Definition isinstance_Exception (e : PyExc) : bool :=
  match e with
  | KeyboardInterrupt | SystemExit | GeneratorExit | OtherBaseException _ => false
  | _ => true
  end.

(** ** A state-and-exception monad

    A computation runs on a state [S]; it either returns a value or raises,
    and in both cases the state it has reached is kept (Python does not roll
    anything back when an exception unwinds). *)

Inductive Res (A : Type) :=
| Ok (a : A)
| Raise (e : PyExc).
Arguments Ok {A} a.
Arguments Raise {A} e.

Definition M (S A : Type) : Type := S -> Res A * S.

Definition ret {S A} (a : A) : M S A := fun s => (Ok a, s).

Definition raise {S A} (e : PyExc) : M S A := fun s => (Raise e, s).

Definition bind {S A B} (c : M S A) (k : A -> M S B) : M S B :=
  fun s =>
    match c s with
    | (Ok a, s') => k a s'
    | (Raise e, s') => (Raise e, s')
    end.

Definition lift {S A} (r : Res A) : M S A := fun s => (r, s).

Definition modify {S} (f : S -> S) : M S unit := fun s => (Ok tt, f s).

(** [try: body / except <classes>: handler], where [catches e] tells whether
    the raised object is an instance of one of the listed classes. *)
Definition try_except {S A} (body : M S A) (catches : PyExc -> bool)
    (handler : PyExc -> M S A) : M S A :=
  fun s =>
    match body s with
    | (Ok a, s') => (Ok a, s')
    | (Raise e, s') => if catches e then handler e s' else (Raise e, s')
    end.

(** [try: body / finally: cleanup]: the cleanup runs on both exits and the
    outcome of the body is kept. *)
Definition try_finally {S A} (body : M S A) (cleanup : M S unit) : M S A :=
  fun s =>
    match body s with
    | (r, s') =>
        match cleanup s' with
        | (Ok _, s'') => (r, s'')
        | (Raise e, s'') => (Raise e, s'')
        end
    end.

Declare Scope py_scope.
Delimit Scope py_scope with py.
Notation "x <- c ;; k" := (bind c (fun x => k))
  (at level 100, c at next level, right associativity) : py_scope.
Notation "c ;;; k" := (bind c (fun _ => k))
  (at level 100, right associativity) : py_scope.
Local Open Scope py_scope.

(** ** Arroyo's message types (lines 17, 83-87) *)

Record Topic := { topic_name : string }.

Record Partition := { partition_topic : Topic; index : Z }.

Record KafkaPayload := {
  key : option bytes;
  payload_value : bytes;
  headers : list (string * bytes)
}.

Record BrokerValue := {
  payload : KafkaPayload;
  partition : Partition;
  offset : Z;
  timestamp : Z
}.

(** A message carries either a value read from the broker, or a plain value
    produced inside the pipeline, which has a committable map but neither an
    offset nor a partition of its own. *)
Inductive BaseValue :=
| IsBrokerValue (v : BrokerValue)
| IsValue (p : KafkaPayload) (committable : list (Partition * Z)).

Record Message := { value : BaseValue }.

(** The offsets a message lets the consumer commit: for a broker value, the
    next offset of its partition. *)
Definition committable (m : Message) : list (Partition * Z) :=
  match value m with
  | IsBrokerValue v => [(partition v, offset v + 1)]
  | IsValue _ c => c
  end.

(** ** Datasets and codecs *)

(** A member of the [Dataset] enum: its name and its string value. *)
Record Dataset := { dataset_name : string; dataset_value : string }.

Global Instance Dataset_eq_dec : EqDecision Dataset.
Proof. solve_decision. Defined.

Global Instance Dataset_countable : Countable Dataset.
Proof.
  apply (inj_countable' (fun d => (dataset_name d, dataset_value d))
           (fun p => {| dataset_name := p.1; dataset_value := p.2 |})).
  by intros [].
Defined.

(** What [get_codec] returns: a decoder bound to a schema. *)
Record Codec := {
  codec_topic : string;
  decode : bytes -> Res PyVal
}.

(** ** The trace of a processing run *)

(** The six arguments of [handle_message], in call order (lines 89-96). *)
Record HandlerArgs := {
  arg_message_value : PyVal;
  arg_offset : Z;
  arg_partition : Z;
  arg_topic : string;
  arg_dataset : string;
  arg_codec : Codec
}.

(** The [extra] dictionary of the log record (lines 103-107). *)
Record LogExtra := {
  extra_offset : Z;
  extra_partition : Z;
  extra_value : PyVal
}.

Inductive Event :=
| EvStartTransaction (op name : string) (sampled : bool)
| EvFinishTransaction
| EvTimerStart (key : string) (tags : list (string * string))
| EvTimerStop (key : string)
| EvHandleMessage (args : HandlerArgs)
| EvLogException (msg : string) (exc : PyExc) (extra : LogExtra)
| EvCommit (offsets : list (Partition * Z)).

Definition Trace := list Event.

Definition emit (e : Event) : M Trace unit := modify (fun tr => tr ++ [e]).

Definition is_handle_event (e : Event) : option HandlerArgs :=
  match e with EvHandleMessage a => Some a | _ => None end.

Definition is_log_event (e : Event) : option LogExtra :=
  match e with EvLogException _ _ x => Some x | _ => None end.

Definition is_commit_event (e : Event) : option (list (Partition * Z)) :=
  match e with EvCommit o => Some o | _ => None end.

(** The handler calls, log records and commits of a trace, in order. *)
Definition handler_calls (tr : Trace) : list HandlerArgs :=
  omap is_handle_event tr.

Definition logged (tr : Trace) : list LogExtra := omap is_log_event tr.

Definition commits (tr : Trace) : list (list (Partition * Z)) :=
  omap is_commit_event tr.

(** ** The per-message processor *)

Section Processor.

(** The collaborators that [process_message] imports.  The handler is
    opaque: its outcome may depend on its arguments and on everything that
    has happened so far. *)
Variable handle_message : HandlerArgs -> Trace -> Res unit.
Variable get_codec : string -> Res Codec.
Variable in_random_rollout : string -> bool.

Definition call_handle_message (args : HandlerArgs) : M Trace unit :=
  fun tr => (handle_message args tr, tr ++ [EvHandleMessage args]).

(** [logger.exception(msg, extra=...)] inside an [except] block: the
    record carries the exception being handled. *)
Definition logger_exception (msg : string) (exc : PyExc) (extra : LogExtra)
  : M Trace unit :=
  emit (EvLogException msg exc extra).

(** [with sentry_sdk.start_transaction(...)]: the transaction is finished
    on both exits and does not swallow the exception. *)
Definition with_start_transaction {A} (op name : string) (sampled : bool)
    (body : M Trace A) : M Trace A :=
  emit (EvStartTransaction op name sampled);;;
  try_finally body (emit EvFinishTransaction).

(** [with metrics.timer(key, tags=...)]. *)
Definition with_timer {A} (key : string) (tags : list (string * string))
    (body : M Trace A) : M Trace A :=
  emit (EvTimerStart key tags);;;
  try_finally body (emit (EvTimerStop key)).

(** [assert isinstance(value, BrokerValue)] (line 84). *)
Definition assert_isinstance_BrokerValue (v : BaseValue) : M Trace BrokerValue :=
  match v with
  | IsBrokerValue bv => ret bv
  | IsValue _ _ => raise AssertionError
  end.

Definition skip_message : string :=
  "Unexpected error while handling message in QuerySubscriptionStrategy. Skipping message.".

(** Lines 72-108. *)
Definition process_message (dataset : Dataset) (topic logical_topic : string)
    (message : Message) : M Trace unit :=
  with_start_transaction "handle_message"
    "query_subscription_consumer_process_message"
    (in_random_rollout "subscriptions-query.sample-rate")
    (with_timer "snuba_query_subscriber.handle_message"
       [("dataset", dataset_value dataset)]
       (let value := value message in
        value <- assert_isinstance_BrokerValue value;;
        let offset := offset value in
        let partition := index (partition value) in
        let message_value := payload_value (payload value) in
        try_except
          (codec <- lift (get_codec logical_topic);;
           call_handle_message
             {| arg_message_value := PyBytes message_value;
                arg_offset := offset;
                arg_partition := partition;
                arg_topic := topic;
                arg_dataset := dataset_value dataset;
                arg_codec := codec |})
          isinstance_Exception
          (fun exc =>
             logger_exception skip_message exc
               {| extra_offset := offset;
                  extra_partition := partition;
                  extra_value := PyBytes message_value |}))).

End Processor.

(** ** The inline pipeline

    arroyo's [RunTask] and [CommitOffsets] are not part of the sources at
    hand.  Section 2 of the specification gives the control flow: the driver
    feeds each polled message to the per-message processor and then to the
    offset committer; an exception that leaves the processor ends the run. *)

Section InlinePipeline.

Variable function : Message -> M Trace unit.

(** Modelled from the spec: [CommitOffsets.submit], the terminal stage; the
    message's offsets are handed to the commit callback. *)
Definition commit_offsets_submit (m : Message) : M Trace unit :=
  emit (EvCommit (committable m)).

(** Modelled from the spec: [RunTask.submit]; the function is run on the
    message, on the caller's thread, and the message moves on to the next
    step. *)
Definition run_task_submit (m : Message) : M Trace unit :=
  function m;;; commit_offsets_submit m.

(** Modelled from the spec: the driver's loop over the polled messages; it
    ends with the first exception that a submission lets through. *)
Fixpoint run_inline (msgs : list Message) : M Trace unit :=
  match msgs with
  | [] => ret tt
  | m :: rest => run_task_submit m;;; run_inline rest
  end.

End InlinePipeline.

(** ** The heap: pools and factories *)

Definition loc := nat.

(** Modelled from the spec: the Worker Pool of section 4.2
    ([MultiprocessingPool] of [sentry.utils.arroyo] is not part of the
    sources at hand).  [construct(size)] allocates [size] long-lived slots;
    [submit] enqueues a unit of work and returns a handle; [shutdown] lets
    the submitted tasks complete or be abandoned and releases every slot,
    after which [submit] fails with [PoolClosedError]. *)
Record MultiprocessingPool := {
  slots : Z;
  in_flight : list (list Message);
  pool_closed : bool
}.

(** The attributes set by [__init__] (lines 39-47). *)
Record QuerySubscriptionStrategyFactory := {
  topic : string;
  dataset : Dataset;
  logical_topic : string;
  max_batch_size : Z;
  max_batch_time : Z;
  input_block_size : option Z;
  output_block_size : option Z;
  multi_proc : bool;
  pool : loc
}.

(** What a Kafka consumer is configured with (lines 131-136). *)
Record KafkaConfiguration := {
  cluster_options : list (string * string);
  group_id : string;
  strict_offset_reset : bool;
  auto_offset_reset : string
}.

Record KafkaConsumer := { configuration : KafkaConfiguration }.

Inductive Obj :=
| ObjPool (p : MultiprocessingPool)
| ObjFactory (f : QuerySubscriptionStrategyFactory)
| ObjConsumer (c : KafkaConsumer).

(** [MetricsWrapper(backend, name=..., tags=...)] (lines 158-160). *)
Record MetricsWrapper := {
  metrics_name : string;
  metrics_tags : list (string * string)
}.

(** The process-wide state that construction and teardown act on: the
    objects allocated so far and the metrics backend registered with
    arroyo. *)
Record World := {
  heap : gmap loc Obj;
  configured_metrics : option MetricsWrapper
}.

Definition set_heap (h : gmap loc Obj) (w : World) : World :=
  {| heap := h; configured_metrics := configured_metrics w |}.

Definition alloc (o : Obj) : M World loc :=
  fun w =>
    let l := fresh (dom (heap w)) in
    (Ok l, set_heap (<[l := o]> (heap w)) w).

Definition load_pool (l : loc) : M World MultiprocessingPool :=
  fun w =>
    match heap w !! l with
    | Some (ObjPool p) => (Ok p, w)
    | _ => (Raise (OtherException "AttributeError"), w)
    end.

Definition load_factory (l : loc) : M World QuerySubscriptionStrategyFactory :=
  fun w =>
    match heap w !! l with
    | Some (ObjFactory f) => (Ok f, w)
    | _ => (Raise (OtherException "AttributeError"), w)
    end.

Definition store (l : loc) (o : Obj) : M World unit :=
  modify (fun w => set_heap (<[l := o]> (heap w)) w).

(** [d[k]] on a dictionary: [KeyError] when the key is missing. *)
Definition dict_getitem `{Countable K} {V S} (d : gmap K V) (k : K)
    (repr : K -> string) : M S V :=
  match d !! k with
  | Some v => ret v
  | None => raise (KeyError (repr k))
  end.

Section Pool.

(** Whether the operating system grants the requested concurrency. *)
Variable os_can_allocate : Z -> bool.

(** Modelled from the spec: [construct(size)] of section 4.2; it fails
    fatally when the concurrency cannot be allocated. *)
Definition MultiprocessingPool__init__ (num_processes : Z) : M World loc :=
  if os_can_allocate num_processes then
    alloc (ObjPool {| slots := num_processes; in_flight := [];
                      pool_closed := false |})
  else raise (OSError "cannot allocate worker processes").

(** Modelled from the spec: [submit(task)] of section 4.2; the handle is the
    position of the task in the queue. *)
Definition pool_submit (l : loc) (task : list Message) : M World nat :=
  p <- load_pool l;;
  if pool_closed p then raise PoolClosedError
  else
    store l (ObjPool {| slots := slots p;
                        in_flight := in_flight p ++ [task];
                        pool_closed := false |});;;
    ret (length (in_flight p)).

(** Modelled from the spec: [shutdown()] of section 4.2, which the factory
    reaches as [close] (line 69). *)
Definition pool_close (l : loc) : M World unit :=
  p <- load_pool l;;
  store l (ObjPool {| slots := 0; in_flight := []; pool_closed := true |}).

End Pool.

(** The pool object that a construction starts, and the pool object that
    [close] leaves behind. *)
Definition started_pool (num_processes : Z) : Obj :=
  ObjPool {| slots := num_processes; in_flight := []; pool_closed := false |}.

Definition closed_pool : Obj :=
  ObjPool {| slots := 0; in_flight := []; pool_closed := true |}.

(** Submitting a list of tasks, one after the other. *)
Fixpoint submit_all (l : loc) (tasks : list (list Message)) : M World unit :=
  match tasks with
  | [] => ret tt
  | task :: rest => pool_submit l task;;; submit_all l rest
  end.

(** ** Processing strategies (lines 49-66) *)

(** The commit callback that the stream processor passes in. *)
Record Commit := { commit_id : nat }.

(** [partial(process_message, dataset, topic, logical_topic)] (line 54). *)
Record Callable := {
  bound_dataset : Dataset;
  bound_topic : string;
  bound_logical_topic : string
}.

Inductive ProcessingStrategy :=
| CommitOffsets (commit : Commit)
| RunTask (function : Callable) (next_step : ProcessingStrategy)
| RunTaskWithMultiprocessing (function : Callable)
    (next_step : ProcessingStrategy) (max_batch_size max_batch_time : Z)
    (pool : loc) (input_block_size output_block_size : option Z).

(** The pool a strategy dispatches to, if any. *)
Fixpoint strategy_pool (s : ProcessingStrategy) : option loc :=
  match s with
  | CommitOffsets _ => None
  | RunTask _ next => strategy_pool next
  | RunTaskWithMultiprocessing _ _ _ _ p _ _ => Some p
  end.

Section Factory.

Variable topic_to_dataset : gmap string Dataset.
Variable dataset_to_logical_topic : gmap Dataset string.
Variable os_can_allocate : Z -> bool.

(** Lines 29-47. *)
Definition __init__ (topic : string) (max_batch_size max_batch_time : Z)
    (num_processes : Z) (input_block_size output_block_size : option Z)
    (multi_proc : bool) : M World loc :=
  dataset <- dict_getitem topic_to_dataset topic id;;
  logical_topic <- dict_getitem dataset_to_logical_topic dataset dataset_name;;
  pool <- MultiprocessingPool__init__ os_can_allocate num_processes;;
  alloc (ObjFactory
           {| topic := topic;
              dataset := dataset;
              logical_topic := logical_topic;
              max_batch_size := max_batch_size;
              max_batch_time := max_batch_time;
              input_block_size := input_block_size;
              output_block_size := output_block_size;
              multi_proc := multi_proc;
              pool := pool |}).

(** Lines 49-66. *)
Definition create_with_partitions (self : loc) (commit : Commit)
    (partitions : list (Partition * Z)) : M World ProcessingStrategy :=
  self <- load_factory self;;
  let callable :=
    {| bound_dataset := dataset self;
       bound_topic := topic self;
       bound_logical_topic := logical_topic self |} in
  if multi_proc self then
    ret (RunTaskWithMultiprocessing callable (CommitOffsets commit)
           (max_batch_size self) (max_batch_time self) (pool self)
           (input_block_size self) (output_block_size self))
  else
    ret (RunTask callable (CommitOffsets commit)).

(** Lines 68-69. *)
Definition shutdown (self : loc) : M World unit :=
  self <- load_factory self;;
  pool_close (pool self).

End Factory.

(** ** The batching strategy

    [RunTaskWithMultiprocessing] of [sentry.utils.arroyo] is not part of the
    sources at hand.  Section 4.4 of the specification: units are accepted
    one at a time; the accumulated batch is flushed downstream when its count
    reaches [max_batch_size] or when the time elapsed since its first item
    reaches [max_batch_time]; a flush resets both counters; on shutdown a
    partial batch is flushed.  Clock readings are in milliseconds,
    [max_batch_time] in seconds. *)

Module Batching.

(** Modelled from the spec: the accumulated batch, the arrival time of its
    first item, and the batches flushed downstream so far. *)
Record State := {
  pending : list Message;
  first_at : option Z;
  flushed : list (list Message)
}.

Definition init : State :=
  {| pending := []; first_at := None; flushed := [] |}.

(** Modelled from the spec: a flush sends the accumulated batch downstream
    and resets both counters; with nothing accumulated it does nothing. *)
Definition flush (st : State) : State :=
  match pending st with
  | [] => st
  | _ :: _ =>
      {| pending := []; first_at := None;
         flushed := flushed st ++ [pending st] |}
  end.

Section WithLimits.

Variables max_batch_size max_batch_time : Z.

(** Modelled from the spec: condition (a), the count reaches
    [max_batch_size]. *)
Definition count_reached (st : State) : bool :=
  max_batch_size <=? Z.of_nat (length (pending st)).

(** Modelled from the spec: condition (b), the time elapsed since the
    batch's first item reaches [max_batch_time]. *)
Definition time_reached (now : Z) (st : State) : bool :=
  match first_at st with
  | Some t0 => 1000 * max_batch_time <=? now - t0
  | None => false
  end.

(** Modelled from the spec: whichever condition triggers first wins. *)
Definition due (now : Z) (st : State) : bool :=
  count_reached st || time_reached now st.

(** Modelled from the spec: a unit joins the batch; the first one starts
    the clock. *)
Definition accept (now : Z) (m : Message) (st : State) : State :=
  {| pending := pending st ++ [m];
     first_at := match first_at st with
                 | Some t0 => Some t0
                 | None => Some now
                 end;
     flushed := flushed st |}.

(** Modelled from the spec: units are accepted one at a time, and the batch
    is flushed as soon as a limit is reached. *)
Definition submit (now : Z) (m : Message) (st : State) : State :=
  let st' := accept now m st in
  if due now st' then flush st' else st'.

(** Modelled from the spec: between submissions the driver polls the
    strategy, which flushes once the deadline has passed. *)
Definition poll (now : Z) (st : State) : State :=
  if due now st then flush st else st.

End WithLimits.

(** Modelled from the spec: on shutdown any partial batch is flushed. *)
Definition join (st : State) : State := flush st.

(** What the driver does to a strategy between start and teardown. *)
Inductive Step :=
| Submit (now : Z) (m : Message)
| Poll (now : Z).

Definition step (max_batch_size max_batch_time : Z) (a : Step) (st : State)
  : State :=
  match a with
  | Submit now m => submit max_batch_size max_batch_time now m st
  | Poll now => poll max_batch_size max_batch_time now st
  end.

Definition run (max_batch_size max_batch_time : Z) (steps : list Step)
    (st : State) : State :=
  foldl (fun st a => step max_batch_size max_batch_time a st) st steps.

Definition submitted (steps : list Step) : list Message :=
  omap (fun a => match a with Submit _ m => Some m | Poll _ => None end) steps.

End Batching.

(** The strategies handed out over a sequence of rebalances: the stream
    processor calls [create_with_partitions] once per assignment. *)
Fixpoint rebalances (self : loc) (calls : list (Commit * list (Partition * Z)))
  : M World (list ProcessingStrategy) :=
  match calls with
  | [] => ret []
  | (commit, partitions) :: rest =>
      s <- create_with_partitions self commit partitions;;
      ss <- rebalances self rest;;
      ret (s :: ss)
  end.

(** The batching limits a strategy runs with: those it was constructed
    with. *)
Definition batch_limits (s : ProcessingStrategy) : option (Z * Z) :=
  match s with
  | RunTaskWithMultiprocessing _ _ size time _ _ _ => Some (size, time)
  | _ => None
  end.

(** Modelled from the spec: the stream driver's teardown (section 4.6) stops
    polling, flushes the pending batch and then shuts the factory down. *)
Definition teardown (self : loc) (st : Batching.State) : M World Batching.State :=
  let st' := Batching.join st in
  shutdown self;;; ret st'.

(** ** Commit policy

    arroyo's [CommitPolicy] and its constant [ONCE_PER_SECOND] are not part
    of the sources at hand.  Sections 4.5 and 6 of the specification:
    checkpoints recorded by the committer are committed on a fixed cadence
    of one second of wall-clock time. *)

(** Modelled from the spec: a commit cadence.  A policy may name a minimal
    interval, a minimal number of messages, or both. *)
Record CommitPolicy := {
  min_commit_frequency_sec : option Z;
  min_commit_messages : option Z
}.

(** Modelled from the spec: the default cadence, a fixed interval of one
    second and no message count. *)
Definition ONCE_PER_SECOND : CommitPolicy :=
  {| min_commit_frequency_sec := Some 1; min_commit_messages := None |}.

(** Modelled from the spec: a commit is due as soon as a threshold that the
    policy names is reached. *)
Definition should_commit (p : CommitPolicy) (elapsed_ms messages_since : Z)
  : bool :=
  match min_commit_messages p with
  | Some n => n <=? messages_since
  | None => false
  end
  || match min_commit_frequency_sec p with
     | Some f => 1000 * f <=? elapsed_ms
     | None => false
     end.

(** Modelled from the spec: the committer's bookkeeping of section 4.5; the
    checkpoints recorded since the last commit, when that commit happened,
    and what was sent to the broker. *)
Record Committer := {
  recorded : list (Partition * Z);
  recorded_messages : Z;
  last_commit : Z;
  committed : list (Z * list (Partition * Z))
}.

(** Modelled from the spec: the committer records the offsets it is handed
    and commits all that is recorded when the policy says a commit is due. *)
Definition record_offsets (p : CommitPolicy) (now : Z)
    (offsets : list (Partition * Z)) (c : Committer) : Committer :=
  let rec := recorded c ++ offsets in
  let n := recorded_messages c + 1 in
  if should_commit p (now - last_commit c) n then
    {| recorded := []; recorded_messages := 0; last_commit := now;
       committed := committed c ++ [(now, rec)] |}
  else
    {| recorded := rec; recorded_messages := n; last_commit := last_commit c;
       committed := committed c |}.

(** A stream of arrivals, each with its clock reading. *)
Definition record_all (p : CommitPolicy)
    (arrivals : list (Z * list (Partition * Z))) (c : Committer) : Committer :=
  foldl (fun c a => record_offsets p a.1 a.2 c) c arrivals.

(** ** The consumer (lines 111-161) *)

(** The stream processor refers to its consumer and to its factory. *)
Record StreamProcessor := {
  consumer : loc;
  processor_topic : Topic;
  processor_factory : loc;
  commit_policy : CommitPolicy
}.

(** arroyo's [configure_metrics(metrics)], called without [force]
    (line 161): it asserts that no backend is registered yet, so a second
    registration raises and the registered backend stays. *)
Definition configure_metrics (metrics : MetricsWrapper) : M World unit :=
  fun w =>
    match configured_metrics w with
    | Some _ => (Raise AssertionError, w)
    | None =>
        (Ok tt, {| heap := heap w; configured_metrics := Some metrics |})
    end.

(** Lines 154-161. *)
Definition initialize_metrics (group_id : string) : M World unit :=
  let metrics_wrapper :=
    {| metrics_name := "query_subscription_consumer";
       metrics_tags := [("consumer_group", group_id)] |} in
  configure_metrics metrics_wrapper.

(** arroyo's [build_kafka_consumer_configuration]. *)
Definition build_kafka_consumer_configuration
    (cluster_options : list (string * string)) (group_id : string)
    (strict_offset_reset : bool) (auto_offset_reset : string)
  : KafkaConfiguration :=
  {| cluster_options := cluster_options;
     group_id := group_id;
     strict_offset_reset := strict_offset_reset;
     auto_offset_reset := auto_offset_reset |}.

Section Consumer.

Variable topic_to_dataset : gmap string Dataset.
Variable dataset_to_logical_topic : gmap Dataset string.
Variable os_can_allocate : Z -> bool.

(** [sentry.utils.kafka_config]. *)
Variable get_topic_definition : string -> Res (gmap string string).
Variable get_kafka_consumer_cluster_options :
  string -> Res (list (string * string)).

(** The exception, if any, with which the Kafka client refuses a
    configuration. *)
Variable kafka_consumer_error : KafkaConfiguration -> option PyExc.

(** [KafkaConsumer(configuration)] (line 130): unless the client refuses the
    configuration, a consumer object comes into being. *)
Definition new_KafkaConsumer (configuration : KafkaConfiguration)
  : M World loc :=
  match kafka_consumer_error configuration with
  | Some e => raise e
  | None => alloc (ObjConsumer {| configuration := configuration |})
  end.

(** Lines 111-151. *)
Definition get_query_subscription_consumer (topic group_id : string)
    (strict_offset_reset : bool) (initial_offset_reset : string)
    (max_batch_size max_batch_time num_processes : Z)
    (input_block_size output_block_size : option Z) (multi_proc : bool)
  : M World StreamProcessor :=
  definition <- lift (get_topic_definition topic);;
  cluster_name <- dict_getitem definition "cluster" id;;
  cluster_options <- lift (get_kafka_consumer_cluster_options cluster_name);;
  initialize_metrics group_id;;;
  consumer <- new_KafkaConsumer
                (build_kafka_consumer_configuration cluster_options group_id
                   strict_offset_reset initial_offset_reset);;
  factory <- __init__ topic_to_dataset dataset_to_logical_topic
               os_can_allocate topic max_batch_size max_batch_time
               num_processes input_block_size output_block_size multi_proc;;
  ret {| consumer := consumer;
         processor_topic := {| topic_name := topic |};
         processor_factory := factory;
         commit_policy := ONCE_PER_SECOND |}.

End Consumer.

(** ** Vocabulary for the statements about [process_message] *)

Section ProcessorVocabulary.

Variable handle_message : HandlerArgs -> Trace -> Res unit.
Variable get_codec : string -> Res Codec.
Variable in_random_rollout : string -> bool.

(** The argument tuple that line 89-96 builds for a broker value. *)
Definition handler_args (dataset : Dataset) (topic : string)
    (bv : BrokerValue) (codec : Codec) : HandlerArgs :=
  {| arg_message_value := PyBytes (payload_value (payload bv));
     arg_offset := offset bv;
     arg_partition := index (partition bv);
     arg_topic := topic;
     arg_dataset := dataset_value dataset;
     arg_codec := codec |}.

(** The [extra] of lines 103-107 for a broker value. *)
Definition log_extra (bv : BrokerValue) : LogExtra :=
  {| extra_offset := offset bv;
     extra_partition := index (partition bv);
     extra_value := PyBytes (payload_value (payload bv)) |}.

(** What entering and leaving the two context managers records. *)
Definition entry_events (dataset : Dataset) : list Event :=
  [EvStartTransaction "handle_message"
     "query_subscription_consumer_process_message"
     (in_random_rollout "subscriptions-query.sample-rate");
   EvTimerStart "snuba_query_subscriber.handle_message"
     [("dataset", dataset_value dataset)]].

Definition exit_events : list Event :=
  [EvTimerStop "snuba_query_subscriber.handle_message"; EvFinishTransaction].

(** The statement guarded by [try] (lines 89-96): the codec lookup is an
    argument of the call, so it is evaluated inside the guard. *)
Definition invocation (dataset : Dataset) (topic logical_topic : string)
    (bv : BrokerValue) : M Trace unit :=
  codec <- lift (get_codec logical_topic);;
  call_handle_message handle_message (handler_args dataset topic bv codec).

End ProcessorVocabulary.

(** ** Sample data *)

Definition events_topic : string := "events-subscription-results".

Definition Events : Dataset :=
  {| dataset_name := "Events"; dataset_value := "events" |}.

(** A codec that wraps the raw bytes into a record, and one that rejects
    every payload. *)
Definition sample_codec : Codec :=
  {| codec_topic := events_topic;
     decode := fun b => Ok (PyDict [("payload", PyBytes b)]) |}.

Definition strict_codec : Codec :=
  {| codec_topic := events_topic;
     decode := fun _ => Raise (OtherException "ValidationError") |}.

Definition sample_get_codec (logical_topic : string) : Res Codec :=
  if decide (logical_topic = events_topic) then Ok sample_codec
  else Raise (OtherException "SchemaNotFound").

Definition sample_payload : KafkaPayload :=
  {| key := None; payload_value := [Byte.x7b; Byte.x7d]; headers := [] |}.

Definition sample_broker_value (off : Z) : BrokerValue :=
  {| payload := sample_payload;
     partition := {| partition_topic := {| topic_name := events_topic |};
                     index := 0 |};
     offset := off;
     timestamp := 0 |}.

Definition sample_message (off : Z) : Message :=
  {| value := IsBrokerValue (sample_broker_value off) |}.

Definition handler_ok : HandlerArgs -> Trace -> Res unit :=
  fun _ _ => Ok tt.

(** A handler that fails on one offset, with an exception of a given
    class. *)
Definition handler_failing_at (k : Z) (e : PyExc)
  : HandlerArgs -> Trace -> Res unit :=
  fun args _ => if arg_offset args =? k then Raise e else Ok tt.

Definition never_sampled : string -> bool := fun _ => false.

(** One message, handled without error. *)
Definition sample_trace : Trace :=
  (process_message handler_ok sample_get_codec never_sampled
     Events events_topic events_topic (sample_message 5) []).2.

(** Two messages through the inline pipeline, with a handler that calls
    [sys.exit()] on the first of them. *)
Definition exiting_run : Res unit * Trace :=
  run_inline
    (process_message (handler_failing_at 7 SystemExit) sample_get_codec
       never_sampled Events events_topic events_topic)
    [sample_message 7; sample_message 8] [].

Definition ValueError : PyExc := OtherException "ValueError".

(** Lookup tables with one registered topic, and an empty process. *)
Definition sample_topic_to_dataset : gmap string Dataset :=
  {[ events_topic := Events ]}.

Definition sample_dataset_to_logical_topic : gmap Dataset string :=
  {[ Events := events_topic ]}.

Definition always_allocates : Z -> bool := fun _ => true.

Definition empty_world : World :=
  {| heap := ∅; configured_metrics := None |}.

(** A factory in multiprocessing mode with [max_batch_size = 10] and
    [max_batch_time = 1], and a world that holds it together with its pool. *)
Definition sample_factory (multi_proc : bool) : QuerySubscriptionStrategyFactory :=
  {| topic := events_topic; dataset := Events; logical_topic := events_topic;
     max_batch_size := 10; max_batch_time := 1;
     input_block_size := None; output_block_size := None;
     multi_proc := multi_proc; pool := 0%nat |}.

Definition sample_world (multi_proc : bool) : World :=
  {| heap := {[ 0%nat := started_pool 4;
                1%nat := ObjFactory (sample_factory multi_proc) ]};
     configured_metrics := None |}.

(** Four messages submitted at once, well within the limits. *)
Definition four_submissions : list Batching.Step :=
  [Batching.Submit 0 (sample_message 0); Batching.Submit 0 (sample_message 1);
   Batching.Submit 0 (sample_message 2); Batching.Submit 0 (sample_message 3)].

(** The world once the metrics have been registered for a group, and the
    world once a consumer with a given configuration has been built. *)
Definition metrics_registered (group : string) (w : World) : World :=
  {| heap := heap w;
     configured_metrics :=
       Some {| metrics_name := "query_subscription_consumer";
               metrics_tags := [("consumer_group", group)] |} |}.

Definition consumer_built (configuration : KafkaConfiguration) (w : World)
  : World :=
  set_heap (<[fresh (dom (heap w)) :=
                ObjConsumer {| configuration := configuration |}]> (heap w)) w.

Definition accepting_kafka : KafkaConfiguration -> option PyExc :=
  fun _ => None.

Definition sample_topic_definition (topic : string)
  : Res (gmap string string) :=
  Ok {[ "cluster" := "default" ]}.

Definition sample_cluster_options (cluster_name : string)
  : Res (list (string * string)) :=
  Ok [("bootstrap.servers", "127.0.0.1:9092")].

(** The trace reached when the guarded call fails with [ValueError] on the
    message at offset 7, starting from an empty trace. *)
Definition failing_invocation_trace : Trace :=
  (invocation (handler_failing_at 7 ValueError) sample_get_codec
     Events events_topic events_topic (sample_broker_value 7)
     ([] ++ entry_events never_sampled Events)).2.

(** * [sentry/utils/dates.py]: statistics periods and intervals *)

(** Exceptions without a state. *)
Definition res_bind {A B} (r : Res A) (k : A -> Res B) : Res B :=
  match r with
  | Ok a => k a
  | Raise e => Raise e
  end.

(** [try: body / except <classes>: handler] without a state. *)
Definition res_try {A} (body : Res A) (catches : PyExc -> bool)
    (handler : PyExc -> Res A) : Res A :=
  match body with
  | Ok a => Ok a
  | Raise e => if catches e then handler e else Raise e
  end.

Definition OverflowError : PyExc := OtherException "OverflowError".

Definition is_OverflowError (e : PyExc) : bool :=
  match e with
  | OtherException cls => bool_decide (cls = "OverflowError")
  | _ => false
  end.

(** A [timedelta] is kept as its total number of microseconds.  Python
    normalises it to days, seconds and microseconds and refuses a number of
    days beyond 999999999 in either direction. *)
Definition us_per_second : Z := 1000000.
Definition us_per_day : Z := 86400 * us_per_second.
Definition timedelta_max : Z := 999999999 * us_per_day + (us_per_day - 1).
Definition timedelta_min : Z := - 999999999 * us_per_day.

(** The keyword arguments of [timedelta] that line 125 can name, in
    microseconds. *)
Definition timedelta_keyword (kw : string) : option Z :=
  if decide (kw = "weeks") then Some (7 * us_per_day)
  else if decide (kw = "days") then Some us_per_day
  else if decide (kw = "hours") then Some (3600 * us_per_second)
  else if decide (kw = "minutes") then Some (60 * us_per_second)
  else if decide (kw = "seconds") then Some us_per_second
  else None.

(** [timedelta] called with the one keyword [kw], set to an integer
    [value]. *)
Definition timedelta_of (kw : string) (value : Z) : Res Z :=
  match timedelta_keyword kw with
  | None => Raise (OtherException "TypeError")
  | Some unit =>
      let total := value * unit in
      if (timedelta_min <=? total) && (total <=? timedelta_max) then Ok total
      else Raise OverflowError
  end.

(** Characters stand for code points below 256; among these [\d] matches
    the ten ASCII digits only. *)
Definition is_digit (c : Ascii.ascii) : bool :=
  let n := Ascii.nat_of_ascii c in (48 <=? n)%nat && (n <=? 57)%nat.

Definition digit_value (c : Ascii.ascii) : Z := Z.of_nat (Ascii.nat_of_ascii c) - 48.

Definition newline : Ascii.ascii := Ascii.ascii_of_nat 10.

(** The longest prefix of digits, and what follows it. *)
Fixpoint span_digits (s : string) : string * string :=
  match s with
  | String c rest =>
      if is_digit c then
        let (ds, r) := span_digits rest in (String c ds, r)
      else (EmptyString, s)
  | EmptyString => (EmptyString, EmptyString)
  end.

(** [[hdmsw]]. *)
Definition is_unit (c : Ascii.ascii) : bool :=
  bool_decide (c ∈ [Ascii.ascii_of_nat 104; Ascii.ascii_of_nat 100; Ascii.ascii_of_nat 109;
                    Ascii.ascii_of_nat 115; Ascii.ascii_of_nat 119]).

(** [$]: the end of the string, or just before a newline that ends it. *)
Definition at_end (s : string) : bool :=
  match s with
  | EmptyString => true
  | String c EmptyString => bool_decide (c = newline)
  | _ => false
  end.

(** [re.match(r"^(\d+)([hdmsw]?)$", period)] and its two groups (line 115).
    The digits are matched greedily; giving some of them back cannot help,
    since what follows them in the pattern does not match a digit. *)
Definition match_stats_period (period : string) : option (string * string) :=
  match span_digits period with
  | (EmptyString, _) => None
  | (value, rest) =>
      match rest with
      | String u rest' =>
          if is_unit u && at_end rest' then Some (value, String u EmptyString)
          else if at_end rest then Some (value, EmptyString)
          else None
      | EmptyString => Some (value, EmptyString)
      end
  end.

Definition int_of_digits (s : string) : Z :=
  fold_left (fun acc c => 10 * acc + digit_value c) (String.list_ascii_of_string s) 0.

Section Dates.

(** [sys.get_int_max_str_digits()]: 0 when conversions are unlimited,
    4300 by default. *)
Variable int_max_str_digits : nat.

(** [int(value)] on a string of decimal digits: beyond 640 digits the
    interpreter's limit applies. *)
Definition int_of_str (value : string) : Res Z :=
  let digits := String.length value in
  if (640 <? digits)%nat && (0 <? int_max_str_digits)%nat
     && (int_max_str_digits <? digits)%nat
  then Raise (OtherException "ValueError")
  else Ok (int_of_digits value).

Definition stats_period_keywords : gmap string string :=
  list_to_map [("h", "hours"); ("d", "days"); ("m", "minutes");
               ("s", "seconds"); ("w", "weeks")].

(** Lines 113-131. *)
Definition parse_stats_period (period : string) : Res (option Z) :=
  match match_stats_period period with
  | None => Ok None
  | Some (value, unit) =>
      res_bind (int_of_str value) (fun value =>
      let unit := if decide (unit = "") then "s" else unit in
      res_try
        (res_bind
           (match stats_period_keywords !! unit with
            | Some kw => Ok kw
            | None => Raise (KeyError unit)
            end)
           (fun kw => res_bind (timedelta_of kw value) (fun d => Ok (Some d))))
        is_OverflowError
        (fun _ => Ok (Some timedelta_max)))
  end.

End Dates.

(** Lines 134-149. *)
Definition get_interval_from_range (date_range : Z) (high_fidelity : bool)
  : string :=
  if 60 * us_per_day <=? date_range then
    if high_fidelity then "4h" else "1d"
  else if 30 * us_per_day <=? date_range then
    if high_fidelity then "1h" else "4h"
  else if 1 * us_per_day <? date_range then
    if high_fidelity then "30m" else "1h"
  else if 3600 * us_per_second <? date_range then
    if high_fidelity then "1m" else "5m"
  else
    if high_fidelity then "5m" else "15m".

(** Strings of decimal digits, and the suffixes that a statistics period
    may carry, with their length in seconds. *)
Fixpoint all_digits (s : string) : bool :=
  match s with
  | String c rest => is_digit c && all_digits rest
  | EmptyString => true
  end.

Definition stats_period_units : list (string * Z) :=
  [("", 1); ("s", 1); ("m", 60); ("h", 3600); ("d", 86400); ("w", 604800)].

Definition newline_string : string := String newline EmptyString.

(** Six hundred and forty-one digits. *)
Definition long_digits : string :=
  String.string_of_list_ascii (replicate 641 (Ascii.ascii_of_nat 49)).

Definition starts_without_digit (s : string) : Prop :=
  match s with
  | String c _ => is_digit c = false
  | EmptyString => True
  end.

(** * [sentry/data_export/processors/discover.py] *)

Definition ExportError : PyExc := OtherException "ExportError".
Definition TypeError : PyExc := OtherException "TypeError".

(** What the query holds under ["environment"]: one name, or a list of
    names. *)
Inductive QueryValue :=
| QScalar (name : string)
| QList (names : list string).

(** A row of the environment table. *)
Record Environment := { env_organization_id : Z; env_name : string }.

(** Lines 61-63. *)
Definition requested_environments (query : gmap string QueryValue)
  : list string :=
  match query !! "environment" with
  | None => []
  | Some (QList names) => names
  | Some (QScalar name) => [name]
  end.

(** Lines 59-78.  [Environment_objects] is the table that the manager
    filters. *)
Definition get_environments (Environment_objects : list Environment)
    (organization_id : Z) (query : gmap string QueryValue) : Res (list string) :=
  let requested_environments := requested_environments query in
  match requested_environments with
  | [] => Ok []
  | _ :: _ =>
      let environments :=
        filter (fun e => env_organization_id e = organization_id
                         /\ env_name e ∈ requested_environments)
          Environment_objects in
      let environment_names := env_name <$> environments in
      if decide (list_to_set requested_environments
                 =@{gset string} list_to_set environment_names)
      then Ok environment_names
      else Raise ExportError
  end.

(** The values of a result row.  A list stands for every value that cannot
    be hashed. *)
#[warnings="-register-all"]
Inductive Cell :=
| CNone
| CInt (z : Z)
| CStr (s : string)
| CList (items : list Cell).

Definition hashable (c : Cell) : bool :=
  match c with
  | CList _ => false
  | _ => true
  end.

(** Rows are dictionaries that live in a heap: a list of results is a list
    of references, and a row can be reached through more than one of
    them. *)
Definition load_row (l : loc) : M (gmap loc (gmap string Cell)) (gmap string Cell) :=
  fun h =>
    match h !! l with
    | Some row => (Ok row, h)
    | None => (Raise (OtherException "ReferenceError"), h)
    end.

Definition store_row (l : loc) (row : gmap string Cell)
  : M (gmap loc (gmap string Cell)) unit :=
  modify (fun h => <[l := row]> h).

(** [for x in l: body]. *)
Fixpoint for_each {S A} (l : list A) (body : A -> M S unit) : M S unit :=
  match l with
  | [] => ret tt
  | x :: rest => body x;;; for_each rest body
  end.

(** A comprehension over [l]. *)
Fixpoint map_m {S A B} (f : A -> M S B) (l : list A) : M S (list B) :=
  match l with
  | [] => ret []
  | x :: rest => y <- f x;; ys <- map_m f rest;; ret (y :: ys)
  end.

(** [d.get(key, default)] on a dictionary with integer keys, for a key that
    is a cell: a list cannot be hashed, and nothing but an integer is equal
    to a key. *)
Definition dict_get_by_cell (d : gmap Z string) (key : Cell) (default : string)
  : Res string :=
  match key with
  | CInt z => Ok (match d !! z with Some v => v | None => default end)
  | CList _ => Raise TypeError
  | _ => Ok default
  end.

(** The attributes of a [DiscoverProcessor] that [handle_fields] reads.
    The aliases are kept in insertion order. *)
Record DiscoverProcessor := {
  header_fields : list string;
  equation_aliases : list (string * string);
  params_organization_id : Z;
  params_project_id : list Z
}.

Section Discover.

(** [Group.objects.filter(id__in=..., project__in=...,
    project__organization_id=...)], as the pairs of [id] and
    [qualified_short_id] of the groups found; the ids are handed over in row
    order. *)
Variable Group_objects_filter :
  list Cell -> list Z -> Z -> Res (list (Z * string)).

(** The table of [sentry_relay.consts]. *)
Variable SPAN_STATUS_CODE_TO_NAME : gmap Z string.

(** Lines 103-135. *)
Definition handle_fields (self : DiscoverProcessor) (result_list : list loc)
  : M (gmap loc (gmap string Cell)) (list loc) :=
  let new_result_list := result_list in
  (if bool_decide ("issue" ∈ header_fields self) then
     issue_ids <-
       map_m (fun result =>
                row <- load_row result;;
                c <- dict_getitem row "issue.id" id;;
                if hashable c then ret c else raise TypeError)
         new_result_list;;
     groups <- lift (Group_objects_filter issue_ids (params_project_id self)
                       (params_organization_id self));;
     let issues : gmap Z string :=
       foldl (fun d g => <[g.1 := g.2]> d) ∅ groups in
     for_each new_result_list (fun result =>
       row <- load_row result;;
       match row !! "issue.id" with
       | Some c =>
           v <- lift (dict_get_by_cell issues c "unknown");;
           store_row result (<["issue" := CStr v]> row)
       | None => ret tt
       end)
   else ret tt);;;
  (if bool_decide ("transaction.status" ∈ header_fields self) then
     for_each new_result_list (fun result =>
       row <- load_row result;;
       match row !! "transaction.status" with
       | Some c =>
           v <- lift (dict_get_by_cell SPAN_STATUS_CODE_TO_NAME c "unknown");;
           store_row result (<["transaction.status" := CStr v]> row)
       | None => ret tt
       end)
   else ret tt);;;
  (match equation_aliases self with
   | [] => ret tt
   | _ :: _ =>
       for_each new_result_list (fun result =>
         for_each (equation_aliases self) (fun item =>
           row <- load_row result;;
           store_row result
             (<[item.2 := match row !! item.1 with
                          | Some c => c
                          | None => CNone
                          end]> row)))
   end);;;
  ret new_result_list.

End Discover.

(** Sample rows and a sample environment table. *)
Definition sample_environments : list Environment :=
  [{| env_organization_id := 1; env_name := "prod" |};
   {| env_organization_id := 1; env_name := "dev" |};
   {| env_organization_id := 2; env_name := "staging" |}].

Definition sample_rows : gmap loc (gmap string Cell) :=
  {[ 0%nat := {[ "issue.id" := CInt 7; "title" := CStr "boom" ]};
     1%nat := {[ "title" := CStr "no issue" ]} ]}.

Definition issue_processor : DiscoverProcessor :=
  {| header_fields := ["title"; "issue"];
     equation_aliases := [];
     params_organization_id := 1;
     params_project_id := [10] |}.

Definition equation_processor : DiscoverProcessor :=
  {| header_fields := ["title"; "count() / 2"];
     equation_aliases := [("equation[0]", "count() / 2")];
     params_organization_id := 1;
     params_project_id := [10] |}.

Definition no_groups : list Cell -> list Z -> Z -> Res (list (Z * string)) :=
  fun _ _ _ => Ok [].

(** What a call may change between two heaps of rows: only rows reached
    through [L], and within a row only the columns in [W]; no row appears or
    disappears. *)
Definition rows_changed_within (L : list loc) (W : string -> Prop)
    (h h' : gmap loc (gmap string Cell)) : Prop :=
  dom h' = dom h
  /\ (forall l, l ∉ L -> h' !! l = h !! l)
  /\ (forall l row row' key,
        h !! l = Some row -> h' !! l = Some row' -> ~ W key ->
        row' !! key = row !! key).

(** The columns that [handle_fields] may write. *)
Definition written_columns (self : DiscoverProcessor) (key : string) : Prop :=
  key = "issue" \/ key = "transaction.status"
  \/ key ∈ (equation_aliases self).*2.


(** A computation keeps a relation when its final state is related to its
    initial state, however it ends. *)
Definition keeps {S A} (R : S -> S -> Prop) (c : M S A) : Prop :=
  forall s, R s (c s).2.

(** The events that open or close one of the two context managers. *)
Definition is_span_event (e : Event) : bool :=
  match e with
  | EvStartTransaction _ _ _ | EvFinishTransaction
  | EvTimerStart _ _ | EvTimerStop _ => true
  | _ => false
  end.

(** The message that carries a broker value. *)
Definition broker_message (bv : BrokerValue) : Message :=
  {| value := IsBrokerValue bv |}.

(** * Properties of the per-message processor *)

Section ProcessorFacts.

Variable handle_message : HandlerArgs -> Trace -> Res unit.
Variable get_codec : string -> Res Codec.
Variable in_random_rollout : string -> bool.

Local Abbreviation process :=
  (process_message handle_message get_codec in_random_rollout).
Local Abbreviation invoke := (invocation handle_message get_codec).
Local Abbreviation entry := (entry_events in_random_rollout).

(** [process_message] on a broker value, by the outcome of the guarded
    statement. *)
Lemma process_message_broker_value dataset topic logical_topic m bv tr :
  value m = IsBrokerValue bv ->
  process dataset topic logical_topic m tr =
    match invoke dataset topic logical_topic bv (tr ++ entry dataset) with
    | (Ok _, tr1) => (Ok tt, tr1 ++ exit_events)
    | (Raise e, tr1) =>
        if isinstance_Exception e then
          (Ok tt, tr1 ++ [EvLogException skip_message e (log_extra bv)]
                      ++ exit_events)
        else (Raise e, tr1 ++ exit_events)
    end.
Proof.
  intros Hv.
  unfold process_message, with_start_transaction, with_timer, invocation,
    entry_events, exit_events.
  rewrite Hv. cbn [assert_isinstance_BrokerValue].
  unfold bind, try_finally, try_except, logger_exception, emit, modify,
    ret, lift, call_handle_message, handler_args, log_extra.
  cbn beta iota.
  rewrite <- !app_assoc. cbn [app].
  destruct (get_codec logical_topic) as [codec|e]; cbn beta iota.
  - destruct (handle_message _ _) as [[]|e]; cbn beta iota.
    + by rewrite <- !app_assoc.
    + destruct (isinstance_Exception e); by rewrite <- !app_assoc.
  - destruct (isinstance_Exception e); by rewrite <- !app_assoc.
Qed.

Lemma invocation_trace dataset topic logical_topic bv tr :
  (invoke dataset topic logical_topic bv tr).2 =
    match get_codec logical_topic with
    | Ok codec => tr ++ [EvHandleMessage (handler_args dataset topic bv codec)]
    | Raise _ => tr
    end.
Proof.
  unfold invocation, bind, lift, call_handle_message.
  by destruct (get_codec logical_topic).
Qed.

Lemma handler_calls_app tr1 tr2 :
  handler_calls (tr1 ++ tr2) = handler_calls tr1 ++ handler_calls tr2.
Proof. apply omap_app. Qed.

Lemma logged_app tr1 tr2 : logged (tr1 ++ tr2) = logged tr1 ++ logged tr2.
Proof. apply omap_app. Qed.

(** The trace only grows. *)
Lemma process_message_extends dataset topic logical_topic m tr :
  exists ext, (process dataset topic logical_topic m tr).2 = tr ++ ext.
Proof.
  destruct (value m) as [bv|p c] eqn:Hv.
  - rewrite (process_message_broker_value _ _ _ _ _ _ Hv).
    pose proof (invocation_trace dataset topic logical_topic bv
                  (tr ++ entry dataset)) as Ht.
    destruct (invoke _ _ _ _ _) as [[[]|e] tr1]; cbn [snd] in *; subst tr1.
    + destruct (get_codec logical_topic); rewrite <- !app_assoc; eauto.
    + destruct (isinstance_Exception e), (get_codec logical_topic);
        cbn [snd]; rewrite <- ?app_assoc; eauto.
  - unfold process_message, with_start_transaction, with_timer.
    rewrite Hv. cbn. rewrite <- !app_assoc. eauto.
Qed.

Lemma run_inline_extends dataset topic logical_topic msgs tr :
  exists ext,
    (run_inline (process dataset topic logical_topic) msgs tr).2 = tr ++ ext.
Proof.
  revert tr. induction msgs as [|m rest IH]; intros tr.
  - exists []. by rewrite app_nil_r.
  - cbn [run_inline]. unfold run_task_submit, bind at 1 2.
    destruct (process_message_extends dataset topic logical_topic m tr)
      as [ext1 Hext1].
    destruct (process _ _ _ m tr) as [[[]|e] tr1]; cbn [snd] in *; subst tr1.
    + unfold commit_offsets_submit, emit, modify.
      destruct (IH ((tr ++ ext1) ++ [EvCommit (committable m)])) as [ext2 ->].
      rewrite <- !app_assoc. eauto.
    + eauto.
Qed.

(** C1, as amended.  When the statement guarded by [try] raises an
    exception [e] that is an instance of [Exception] for a broker message
    [m], [process_message] returns normally; it has logged one record
    carrying [e] with the message's offset, partition index and raw
    payload; the handler was attempted at most once; and the inline
    pipeline commits [m] and carries on with the remaining messages, the
    next of which reaches the handler. *)
Theorem process_message_isolates_Exception
    dataset topic logical_topic m bv rest tr tr1 e :
  value m = IsBrokerValue bv ->
  invoke dataset topic logical_topic bv (tr ++ entry dataset) = (Raise e, tr1) ->
  isinstance_Exception e = true ->
  process dataset topic logical_topic m tr =
    (Ok tt, tr1 ++ [EvLogException skip_message e
                      {| extra_offset := offset bv;
                         extra_partition := index (partition bv);
                         extra_value := PyBytes (payload_value (payload bv)) |}]
                ++ exit_events)
  /\ logged (process dataset topic logical_topic m tr).2 =
       logged tr ++ [{| extra_offset := offset bv;
                        extra_partition := index (partition bv);
                        extra_value := PyBytes (payload_value (payload bv)) |}]
  /\ (length (handler_calls (process dataset topic logical_topic m tr).2)
       <= length (handler_calls tr) + 1)%nat
  /\ run_inline (process dataset topic logical_topic) (m :: rest) tr =
       run_inline (process dataset topic logical_topic) rest
         ((process dataset topic logical_topic m tr).2
            ++ [EvCommit [(partition bv, offset bv + 1)]])
  /\ (forall m' bv' rest' codec,
        rest = m' :: rest' ->
        value m' = IsBrokerValue bv' ->
        get_codec logical_topic = Ok codec ->
        handler_args dataset topic bv' codec ∈
          handler_calls
            (run_inline (process dataset topic logical_topic) (m :: rest) tr).2).
Proof.
  intros Hv Hinv He.
  pose proof (process_message_broker_value dataset topic logical_topic
                m bv tr Hv) as Hp.
  pose proof (invocation_trace dataset topic logical_topic bv
                (tr ++ entry dataset)) as Ht.
  rewrite Hinv in Hp, Ht. rewrite He in Hp. cbn [snd] in Ht.
  assert (Hrun :
    run_inline (process dataset topic logical_topic) (m :: rest) tr =
    run_inline (process dataset topic logical_topic) rest
      ((process dataset topic logical_topic m tr).2
         ++ [EvCommit [(partition bv, offset bv + 1)]])).
  { cbn [run_inline]. unfold run_task_submit, bind at 1 2.
    rewrite Hp. cbn [snd]. unfold commit_offsets_submit, emit, modify,
      committable. by rewrite Hv. }
  split; [exact Hp|]. rewrite Hrun, Hp. cbn [snd].
  split; [|split; [|split; [reflexivity|]]].
  - rewrite Ht. destruct (get_codec logical_topic);
      rewrite !logged_app; cbn; rewrite ?app_nil_r; reflexivity.
  - rewrite Ht. destruct (get_codec logical_topic);
      rewrite !handler_calls_app, ?length_app; cbn; lia.
  - intros m' bv' rest' codec -> Hv' Hc.
    cbn [run_inline]. unfold run_task_submit, bind at 1 2.
    set (tr2 := (tr1 ++ _ ++ _) ++ _).
    pose proof (process_message_broker_value dataset topic logical_topic
                  m' bv' tr2 Hv') as Hp'.
    pose proof (invocation_trace dataset topic logical_topic bv'
                  (tr2 ++ entry dataset)) as Ht'.
    rewrite Hc in Ht'.
    assert (Hin : exists ext,
               (process dataset topic logical_topic m' tr2).2 =
               tr2 ++ entry dataset
                 ++ [EvHandleMessage (handler_args dataset topic bv' codec)]
                 ++ ext).
    { rewrite Hp'. destruct (invoke _ _ _ bv' _) as [[[]|e'] tr3];
        cbn [snd] in *; subst tr3.
      - rewrite <- !app_assoc. eauto.
      - destruct (isinstance_Exception e'); cbn [snd];
          rewrite <- !app_assoc; eauto. }
    destruct Hin as [ext Hext].
    destruct (process dataset topic logical_topic m' tr2) as [[[]|e'] tr3];
      cbn [snd] in *; subst tr3.
    + unfold commit_offsets_submit, emit, modify.
      match goal with
      | |- context [run_inline ?f rest' ?t] =>
          destruct (run_inline_extends dataset topic logical_topic rest' t)
            as [ext' ->]
      end.
      rewrite !handler_calls_app. cbn. set_solver.
    + rewrite !handler_calls_app. cbn. set_solver.
Qed.

(** C2, as amended.  For a message whose value is a broker value, and when
    the codec registered for the logical topic is found,
    [process_message] calls the external handler exactly once, with the raw
    payload bytes, the offset, the partition index, the topic, the
    dataset's value and that codec; decoding is left to the handler. *)
Theorem process_message_passes_raw_payload
    dataset topic logical_topic m bv codec tr :
  value m = IsBrokerValue bv ->
  get_codec logical_topic = Ok codec ->
  handler_calls (process dataset topic logical_topic m tr).2 =
    handler_calls tr ++
      [{| arg_message_value := PyBytes (payload_value (payload bv));
          arg_offset := offset bv;
          arg_partition := index (partition bv);
          arg_topic := topic;
          arg_dataset := dataset_value dataset;
          arg_codec := codec |}].
Proof.
  intros Hv Hc.
  rewrite (process_message_broker_value _ _ _ _ _ _ Hv).
  pose proof (invocation_trace dataset topic logical_topic bv
                (tr ++ entry dataset)) as Ht.
  rewrite Hc in Ht.
  destruct (invoke _ _ _ _ _) as [[[]|e] tr1]; cbn [snd] in *; subst tr1.
  - rewrite !handler_calls_app. cbn. rewrite !app_nil_r. reflexivity.
  - destruct (isinstance_Exception e); cbn [snd];
      rewrite !handler_calls_app; cbn; rewrite !app_nil_r; reflexivity.
Qed.

(** C8.  For a message whose value is not a broker value, the assertion of
    line 84 fails before the [try] block is entered: [AssertionError],
    although an instance of [Exception], leaves [process_message]; the
    handler is not called, nothing is logged, and the inline pipeline ends
    with that exception. *)
Theorem process_message_asserts_BrokerValue
    dataset topic logical_topic p c rest tr :
  process dataset topic logical_topic {| value := IsValue p c |} tr =
    (Raise AssertionError, tr ++ entry dataset ++ exit_events)
  /\ isinstance_Exception AssertionError = true
  /\ handler_calls (tr ++ entry dataset ++ exit_events) = handler_calls tr
  /\ logged (tr ++ entry dataset ++ exit_events) = logged tr
  /\ run_inline (process dataset topic logical_topic)
       ({| value := IsValue p c |} :: rest) tr =
     (Raise AssertionError, tr ++ entry dataset ++ exit_events).
Proof.
  assert (Hp : process dataset topic logical_topic
                 {| value := IsValue p c |} tr =
               (Raise AssertionError, tr ++ entry dataset ++ exit_events)).
  { unfold process_message, with_start_transaction, with_timer.
    cbn. by rewrite <- !app_assoc. }
  split; [exact Hp|]. split; [reflexivity|].
  split; [|split].
  - rewrite handler_calls_app. cbn. by rewrite app_nil_r.
  - rewrite logged_app. cbn. by rewrite app_nil_r.
  - cbn [run_inline]. unfold run_task_submit, bind at 1 2. by rewrite Hp.
Qed.

End ProcessorFacts.

(** The run of one message that the handler accepts, event by event. *)
Example sample_trace_events :
  sample_trace =
    [EvStartTransaction "handle_message"
       "query_subscription_consumer_process_message" false;
     EvTimerStart "snuba_query_subscriber.handle_message" [("dataset", "events")];
     EvHandleMessage
       (handler_args Events events_topic (sample_broker_value 5) sample_codec);
     EvTimerStop "snuba_query_subscriber.handle_message";
     EvFinishTransaction].
Proof. reflexivity. Qed.

(** A failing codec lookup is absorbed like a failing handler, and the
    handler is not reached. *)
Example process_message_unknown_schema :
  process_message handler_ok sample_get_codec never_sampled
    Events events_topic "no-such-schema" (sample_message 5) [] =
    (Ok tt,
     [EvStartTransaction "handle_message"
        "query_subscription_consumer_process_message" false;
      EvTimerStart "snuba_query_subscriber.handle_message"
        [("dataset", "events")];
      EvLogException skip_message (OtherException "SchemaNotFound")
        (log_extra (sample_broker_value 5));
      EvTimerStop "snuba_query_subscriber.handle_message";
      EvFinishTransaction]).
Proof. reflexivity. Qed.

(** The amended C1 at work: a handler that raises [ValueError] at offset 7,
    followed by the message at offset 8. *)
Lemma process_message_isolates_Exception_witness :
  process_message (handler_failing_at 7 ValueError) sample_get_codec
    never_sampled Events events_topic events_topic (sample_message 7) [] =
    (Ok tt,
     failing_invocation_trace ++
       [EvLogException skip_message ValueError
          {| extra_offset := 7; extra_partition := 0;
             extra_value := PyBytes [Byte.x7b; Byte.x7d] |}] ++ exit_events)
  /\ map arg_offset
       (handler_calls
          (run_inline
             (process_message (handler_failing_at 7 ValueError)
                sample_get_codec never_sampled Events events_topic events_topic)
             [sample_message 7; sample_message 8] []).2) = [7; 8].
Proof.
  split.
  - apply (process_message_isolates_Exception
             (handler_failing_at 7 ValueError) sample_get_codec never_sampled
             Events events_topic events_topic (sample_message 7)
             (sample_broker_value 7) [sample_message 8] []
             failing_invocation_trace ValueError);
      reflexivity.
  - reflexivity.
Defined.

(** C1 as stated fails.  A handler that raises [SystemExit], which is not an
    instance of [Exception], at offset 7: the exception leaves
    [process_message], nothing is logged, the inline run ends with it and the
    message at offset 8 never reaches the handler. *)
Lemma process_message_propagates_SystemExit :
  handler_failing_at 7 SystemExit
    (handler_args Events events_topic (sample_broker_value 7) sample_codec)
    (entry_events never_sampled Events) = Raise SystemExit
  /\ (process_message (handler_failing_at 7 SystemExit) sample_get_codec
        never_sampled Events events_topic events_topic (sample_message 7) []).1
     = Raise SystemExit
  /\ logged
       (process_message (handler_failing_at 7 SystemExit) sample_get_codec
          never_sampled Events events_topic events_topic (sample_message 7) []).2
     = []
  /\ exiting_run.1 = Raise SystemExit
  /\ map arg_offset (handler_calls exiting_run.2) = [7]
  /\ commits exiting_run.2 = [].
Proof. repeat split. Qed.

(** The amended C2 at work. *)
Lemma process_message_passes_raw_payload_witness :
  handler_calls sample_trace =
    [{| arg_message_value := PyBytes [Byte.x7b; Byte.x7d];
        arg_offset := 5;
        arg_partition := 0;
        arg_topic := events_topic;
        arg_dataset := "events";
        arg_codec := sample_codec |}].
Proof.
  apply (process_message_passes_raw_payload handler_ok sample_get_codec
           never_sampled Events events_topic events_topic (sample_message 5)
           (sample_broker_value 5) sample_codec []);
    reflexivity.
Defined.

(** C2 as stated fails.  The codec registered for the topic decodes the
    payload to a record, yet the value handed to the handler is the raw
    [bytes]: no call of the run carries the decoded payload. *)
Lemma process_message_handler_gets_raw_bytes :
  sample_get_codec events_topic = Ok sample_codec
  /\ decode sample_codec (payload_value sample_payload) =
       Ok (PyDict [("payload", PyBytes [Byte.x7b; Byte.x7d])])
  /\ map arg_message_value (handler_calls sample_trace) =
       [PyBytes [Byte.x7b; Byte.x7d]]
  /\ ~ (exists args decoded,
          args ∈ handler_calls sample_trace
          /\ decode sample_codec (payload_value sample_payload) = Ok decoded
          /\ arg_message_value args = decoded).
Proof.
  repeat split.
  intros (args & decoded & Hin & Hdec & Harg).
  change (handler_calls sample_trace) with
    [handler_args Events events_topic (sample_broker_value 5) sample_codec] in Hin.
  apply list_elem_of_singleton in Hin. subst args.
  cbn in Hdec, Harg. congruence.
Qed.

(** The handler is reached even when the registered codec would reject the
    payload: [process_message] never decodes. *)
Example process_message_does_not_decode :
  decode strict_codec (payload_value sample_payload) =
    Raise (OtherException "ValidationError")
  /\ map arg_message_value
       (handler_calls
          (process_message handler_ok (fun _ => Ok strict_codec) never_sampled
             Events events_topic events_topic (sample_message 5) []).2) =
     [PyBytes [Byte.x7b; Byte.x7d]].
Proof. split; reflexivity. Qed.

(** * Properties of the factory *)

Section FactoryFacts.

Variable topic_to_dataset : gmap string Dataset.
Variable dataset_to_logical_topic : gmap Dataset string.
Variable os_can_allocate : Z -> bool.

Local Abbreviation init :=
  (__init__ topic_to_dataset dataset_to_logical_topic os_can_allocate).

Lemma fresh_loc_unused (h : gmap loc Obj) : h !! fresh (dom h) = None.
Proof. apply not_elem_of_dom, is_fresh. Qed.

(** A successful construction: the pool first, then the factory object
    that refers to it. *)
Lemma init_success topic mbs mbt n ibs obs mp d lt w :
  topic_to_dataset !! topic = Some d ->
  dataset_to_logical_topic !! d = Some lt ->
  os_can_allocate n = true ->
  init topic mbs mbt n ibs obs mp w =
    (Ok (fresh (dom (<[fresh (dom (heap w)) := started_pool n]> (heap w)))),
     set_heap
       (<[fresh (dom (<[fresh (dom (heap w)) := started_pool n]> (heap w))) :=
            ObjFactory {| topic := topic; dataset := d; logical_topic := lt;
                          max_batch_size := mbs; max_batch_time := mbt;
                          input_block_size := ibs; output_block_size := obs;
                          multi_proc := mp;
                          pool := fresh (dom (heap w)) |}]>
          (<[fresh (dom (heap w)) := started_pool n]> (heap w))) w).
Proof.
  intros Hd Hlt Hos.
  unfold __init__, dict_getitem, bind, MultiprocessingPool__init__.
  rewrite Hd. cbn. rewrite Hlt. cbn. rewrite Hos. reflexivity.
Qed.

Lemma init_unknown_topic topic mbs mbt n ibs obs mp w :
  topic_to_dataset !! topic = None ->
  init topic mbs mbt n ibs obs mp w = (Raise (KeyError topic), w).
Proof.
  intros Hd. unfold __init__, dict_getitem, bind. by rewrite Hd.
Qed.

Lemma load_factory_eq self f w :
  heap w !! self = Some (ObjFactory f) -> load_factory self w = (Ok f, w).
Proof. intros H. unfold load_factory. by rewrite H. Qed.

Lemma load_pool_eq l p w :
  heap w !! l = Some (ObjPool p) -> load_pool l w = (Ok p, w).
Proof. intros H. unfold load_pool. by rewrite H. Qed.

(** [create_with_partitions] reads the factory and writes nothing. *)
Lemma create_with_partitions_eq self f commit partitions w :
  heap w !! self = Some (ObjFactory f) ->
  create_with_partitions self commit partitions w =
    (Ok (if multi_proc f then
           RunTaskWithMultiprocessing
             {| bound_dataset := dataset f; bound_topic := topic f;
                bound_logical_topic := logical_topic f |}
             (CommitOffsets commit) (max_batch_size f) (max_batch_time f)
             (pool f) (input_block_size f) (output_block_size f)
         else
           RunTask
             {| bound_dataset := dataset f; bound_topic := topic f;
                bound_logical_topic := logical_topic f |}
             (CommitOffsets commit)),
     w).
Proof.
  intros H. unfold create_with_partitions, bind.
  rewrite (load_factory_eq _ _ _ H). by destruct (multi_proc f).
Qed.

(** [shutdown] closes the pool the factory refers to. *)
Lemma shutdown_eq self f p w :
  heap w !! self = Some (ObjFactory f) ->
  heap w !! pool f = Some (ObjPool p) ->
  shutdown self w = (Ok tt, set_heap (<[pool f := closed_pool]> (heap w)) w).
Proof.
  intros Hf Hp. unfold shutdown, pool_close, bind.
  rewrite (load_factory_eq _ _ _ Hf), (load_pool_eq _ _ _ Hp). reflexivity.
Qed.

(** What a successful construction leaves in the heap. *)
Lemma init_allocates topic mbs mbt n ibs obs mp d lt w :
  topic_to_dataset !! topic = Some d ->
  dataset_to_logical_topic !! d = Some lt ->
  os_can_allocate n = true ->
  exists self p w',
    init topic mbs mbt n ibs obs mp w = (Ok self, w')
    /\ heap w !! p = None /\ heap w !! self = None /\ self <> p
    /\ heap w' !! p = Some (started_pool n)
    /\ heap w' !! self =
         Some (ObjFactory {| topic := topic; dataset := d;
                             logical_topic := lt;
                             max_batch_size := mbs; max_batch_time := mbt;
                             input_block_size := ibs;
                             output_block_size := obs;
                             multi_proc := mp; pool := p |})
    /\ (forall l, l <> p -> l <> self -> heap w' !! l = heap w !! l)
    /\ configured_metrics w' = configured_metrics w.
Proof.
  intros Hd Hlt Hos.
  set (p := fresh (dom (heap w))).
  set (h1 := <[p := started_pool n]> (heap w)).
  set (self := fresh (dom h1)).
  assert (Hp : heap w !! p = None) by apply fresh_loc_unused.
  assert (Hs1 : h1 !! self = None) by apply fresh_loc_unused.
  assert (Hne : self <> p).
  { intros ->. unfold h1 in Hs1. by rewrite lookup_insert_eq in Hs1. }
  exists self, p. eexists.
  split; [apply (init_success _ _ _ _ _ _ _ _ _ _ Hd Hlt Hos)|].
  fold p h1 self. cbn [heap set_heap configured_metrics].
  split; [exact Hp|]. split.
  { unfold h1 in Hs1. by rewrite lookup_insert_ne in Hs1. }
  split; [exact Hne|]. split.
  { rewrite lookup_insert_ne by done. unfold h1. by rewrite lookup_insert_eq. }
  split; [by rewrite lookup_insert_eq|]. split; [|reflexivity].
  intros l Hlp Hls. rewrite lookup_insert_ne by done.
  unfold h1. by rewrite lookup_insert_ne.
Qed.

Lemma submit_all_open l tasks : forall p w,
  heap w !! l = Some (ObjPool p) ->
  pool_closed p = false ->
  exists w',
    submit_all l tasks w = (Ok tt, w')
    /\ heap w' !! l =
         Some (ObjPool {| slots := slots p;
                          in_flight := in_flight p ++ tasks;
                          pool_closed := false |})
    /\ (forall l', l' <> l -> heap w' !! l' = heap w !! l').
Proof.
  induction tasks as [|task rest IH]; intros p w Hl Hopen.
  - exists w. rewrite app_nil_r. destruct p as [sl fl cl].
    cbn in *. subst cl. done.
  - cbn [submit_all]. unfold bind at 1, pool_submit, bind at 1.
    rewrite (load_pool_eq _ _ _ Hl), Hopen.
    unfold bind, store, modify, ret. cbn beta iota.
    set (p1 := {| slots := slots p; in_flight := in_flight p ++ [task];
                  pool_closed := false |}).
    set (w1 := set_heap (<[l := ObjPool p1]> (heap w)) w).
    destruct (IH p1 w1) as (w' & Hrun & Hl' & Hother);
      [by cbn; rewrite lookup_insert_eq | done |].
    exists w'. split; [exact Hrun|]. split.
    + rewrite Hl'. cbn. by rewrite <- app_assoc.
    + intros l' Hne. rewrite (Hother l' Hne). cbn.
      by rewrite lookup_insert_ne.
Qed.

Lemma pool_submit_closed l p task w :
  heap w !! l = Some (ObjPool p) ->
  pool_closed p = true ->
  pool_submit l task w = (Raise PoolClosedError, w).
Proof.
  intros Hl Hc. unfold pool_submit, bind.
  by rewrite (load_pool_eq _ _ _ Hl), Hc.
Qed.

Lemma rebalances_eq self f calls w :
  heap w !! self = Some (ObjFactory f) ->
  exists ss,
    rebalances self calls w = (Ok ss, w)
    /\ length ss = length calls
    /\ Forall (fun s =>
                 strategy_pool s = if multi_proc f then Some (pool f) else None)
         ss.
Proof.
  intros Hf. induction calls as [|[commit partitions] rest (ss & Hr & Hlen & Hall)].
  - exists []. by split; [|split; [|constructor]].
  - eexists. cbn [rebalances]. unfold bind at 1.
    rewrite (create_with_partitions_eq _ _ _ _ _ Hf).
    unfold bind. rewrite Hr. unfold ret.
    split; [reflexivity|]. split; [by cbn; rewrite Hlen|].
    constructor; [|exact Hall]. by destruct (multi_proc f).
Qed.

(** C6.  Constructing the factory starts a pool of [num_processes] slots
    that did not exist before; it accepts work; the factory's [shutdown]
    closes that pool and no other object: the tasks in flight are gone, the
    slots are released, and a later [submit] fails with [PoolClosedError]
    and leaves the pool as it is. *)
Theorem factory_starts_and_closes_pool
    topic mbs mbt num_processes ibs obs mp d lt w tasks :
  topic_to_dataset !! topic = Some d ->
  dataset_to_logical_topic !! d = Some lt ->
  os_can_allocate num_processes = true ->
  exists self f w1 w2 w3,
    init topic mbs mbt num_processes ibs obs mp w = (Ok self, w1)
    /\ heap w1 !! self = Some (ObjFactory f)
    /\ heap w !! pool f = None
    /\ heap w1 !! pool f =
         Some (ObjPool {| slots := num_processes; in_flight := [];
                          pool_closed := false |})
    /\ submit_all (pool f) tasks w1 = (Ok tt, w2)
    /\ heap w2 !! pool f =
         Some (ObjPool {| slots := num_processes; in_flight := tasks;
                          pool_closed := false |})
    /\ shutdown self w2 = (Ok tt, w3)
    /\ heap w3 !! pool f =
         Some (ObjPool {| slots := 0; in_flight := []; pool_closed := true |})
    /\ (forall l, l <> pool f -> heap w3 !! l = heap w1 !! l)
    /\ (forall task, pool_submit (pool f) task w3 = (Raise PoolClosedError, w3)).
Proof.
  intros Hd Hlt Hos.
  destruct (init_allocates topic mbs mbt num_processes ibs obs mp d lt w
              Hd Hlt Hos)
    as (self & p & w1 & Hinit & Hp0 & Hs0 & Hne & Hp1 & Hs1 & Hother & _).
  destruct (submit_all_open p tasks _ w1 Hp1 eq_refl)
    as (w2 & Hsub & Hp2 & Hother2).
  assert (Hs2 : heap w2 !! self = heap w1 !! self) by by apply Hother2.
  rewrite Hs1 in Hs2.
  eexists self, _, w1, w2, _.
  split; [exact Hinit|]. split; [exact Hs1|]. cbn [pool].
  split; [exact Hp0|]. split; [exact Hp1|]. split; [exact Hsub|].
  split; [exact Hp2|].
  split; [exact (shutdown_eq self _ _ w2 Hs2 Hp2)|]. cbn [pool heap set_heap].
  split; [by rewrite lookup_insert_eq|]. split.
  - intros l Hl. rewrite lookup_insert_ne by done. by apply Hother2.
  - intros task. apply (pool_submit_closed p {| slots := 0; in_flight := [];
                                                pool_closed := true |});
      [by cbn; rewrite lookup_insert_eq | reflexivity].
Qed.

(** C9.  With [multi_proc] false the construction still starts a pool of
    [num_processes] slots; every strategy that [create_with_partitions]
    returns, over any sequence of calls, is an inline [RunTask] that refers
    to no pool; and [shutdown] still closes the pool. *)
Theorem pool_allocated_even_when_inline
    topic mbs mbt num_processes ibs obs d lt w calls :
  topic_to_dataset !! topic = Some d ->
  dataset_to_logical_topic !! d = Some lt ->
  os_can_allocate num_processes = true ->
  exists self f w1 w2 ss,
    init topic mbs mbt num_processes ibs obs false w = (Ok self, w1)
    /\ heap w1 !! self = Some (ObjFactory f)
    /\ multi_proc f = false
    /\ heap w !! pool f = None
    /\ heap w1 !! pool f =
         Some (ObjPool {| slots := num_processes; in_flight := [];
                          pool_closed := false |})
    /\ rebalances self calls w1 = (Ok ss, w1)
    /\ length ss = length calls
    /\ Forall (fun s => strategy_pool s = None) ss
    /\ (forall commit partitions,
          create_with_partitions self commit partitions w1 =
            (Ok (RunTask {| bound_dataset := d; bound_topic := topic;
                            bound_logical_topic := lt |}
                   (CommitOffsets commit)), w1))
    /\ shutdown self w1 = (Ok tt, w2)
    /\ heap w2 !! pool f =
         Some (ObjPool {| slots := 0; in_flight := []; pool_closed := true |}).
Proof.
  intros Hd Hlt Hos.
  destruct (init_allocates topic mbs mbt num_processes ibs obs false d lt w
              Hd Hlt Hos)
    as (self & p & w1 & Hinit & Hp0 & Hs0 & Hne & Hp1 & Hs1 & Hother & _).
  destruct (rebalances_eq self _ calls w1 Hs1) as (ss & Hr & Hlen & Hall).
  eexists self, _, w1, _, ss.
  split; [exact Hinit|]. split; [exact Hs1|]. cbn [pool multi_proc].
  split; [reflexivity|]. split; [exact Hp0|]. split; [exact Hp1|].
  split; [exact Hr|]. split; [exact Hlen|]. split; [exact Hall|].
  split.
  { intros commit partitions.
    by rewrite (create_with_partitions_eq _ _ _ _ _ Hs1). }
  split; [exact (shutdown_eq self _ _ w1 Hs1 Hp1)|].
  cbn [pool heap set_heap]. by rewrite lookup_insert_eq.
Qed.

(** C10.  Over any sequence of calls of [create_with_partitions] the world
    stays as it was: the factory object keeps all of its fields and the
    pool is untouched.  Every call returns a strategy, and in
    multiprocessing mode each of them refers to the one pool that the
    factory holds. *)
Theorem create_with_partitions_frame self f calls w :
  heap w !! self = Some (ObjFactory f) ->
  exists ss,
    rebalances self calls w = (Ok ss, w)
    /\ heap (rebalances self calls w).2 !! self = Some (ObjFactory f)
    /\ heap (rebalances self calls w).2 !! pool f = heap w !! pool f
    /\ length ss = length calls
    /\ (multi_proc f = true ->
         Forall (fun s => strategy_pool s = Some (pool f)) ss)
    /\ (forall commit partitions,
          (create_with_partitions self commit partitions w).2 = w).
Proof.
  intros Hf.
  destruct (rebalances_eq self f calls w Hf) as (ss & Hr & Hlen & Hall).
  exists ss. rewrite Hr. cbn [snd].
  split; [reflexivity|]. split; [exact Hf|]. split; [reflexivity|].
  split; [exact Hlen|]. split.
  - intros Hmp. by rewrite Hmp in Hall.
  - intros commit partitions.
    by rewrite (create_with_partitions_eq _ _ _ _ _ Hf).
Qed.

End FactoryFacts.

(** * Properties of the batching strategy *)

Section BatchingFacts.

Import Batching.

Variables max_batch_size max_batch_time : Z.

Local Abbreviation submit' := (submit max_batch_size max_batch_time).
Local Abbreviation poll' := (poll max_batch_size max_batch_time).
Local Abbreviation run' := (run max_batch_size max_batch_time).

(** A submission that reaches one of the two limits flushes the batch,
    the new item included. *)
Lemma submit_flushes now m st :
  max_batch_size <= Z.of_nat (length (pending st ++ [m]))
  \/ 1000 * max_batch_time <= now - default now (first_at st) ->
  submit' now m st =
    {| pending := []; first_at := None;
       flushed := flushed st ++ [pending st ++ [m]] |}.
Proof.
  intros Hdue. unfold submit.
  assert (Hd : due max_batch_size max_batch_time now (accept now m st) = true).
  { unfold due, count_reached, time_reached, accept. cbn [pending first_at].
    apply orb_true_iff. destruct Hdue as [H|H]; [left|right].
    - by apply Z.leb_le.
    - destruct (first_at st); by apply Z.leb_le. }
  rewrite Hd. unfold flush, accept. cbn [pending first_at flushed].
  by destruct (pending st).
Qed.

(** A submission below both limits only accumulates. *)
Lemma submit_accumulates now m st :
  Z.of_nat (length (pending st ++ [m])) < max_batch_size ->
  now - default now (first_at st) < 1000 * max_batch_time ->
  submit' now m st =
    {| pending := pending st ++ [m];
       first_at := Some (default now (first_at st));
       flushed := flushed st |}.
Proof.
  intros Hc Ht. unfold submit.
  assert (Hd : due max_batch_size max_batch_time now (accept now m st) = false).
  { unfold due, count_reached, time_reached, accept. cbn [pending first_at].
    apply orb_false_iff. split.
    - by apply Z.leb_gt.
    - destruct (first_at st); by apply Z.leb_gt. }
  rewrite Hd. unfold accept. by destruct (first_at st).
Qed.

(** Polling once the deadline of the first item has passed flushes what
    is queued at that point. *)
Lemma poll_flushes_at_deadline now t0 st :
  first_at st = Some t0 ->
  pending st <> [] ->
  1000 * max_batch_time <= now - t0 ->
  poll' now st =
    {| pending := []; first_at := None;
       flushed := flushed st ++ [pending st] |}.
Proof.
  intros Hf Hp Ht. unfold poll, due, time_reached. rewrite Hf.
  replace (1000 * max_batch_time <=? now - t0) with true
    by (symmetry; by apply Z.leb_le).
  rewrite orb_true_r. unfold flush. by destruct (pending st).
Qed.

(** Nothing is lost or reordered by a flush, a step or a run. *)
Lemma flush_conserves st :
  concat (flushed (flush st)) ++ pending (flush st) =
  concat (flushed st) ++ pending st.
Proof.
  unfold flush. destruct (pending st) as [|m ms] eqn:Hp; [by rewrite Hp|].
  cbn [pending flushed]. rewrite concat_app. cbn.
  by rewrite !app_nil_r.
Qed.

Lemma step_conserves a st :
  concat (flushed (step max_batch_size max_batch_time a st))
    ++ pending (step max_batch_size max_batch_time a st) =
  (concat (flushed st) ++ pending st) ++ submitted [a].
Proof.
  destruct a as [now m|now]; cbn [step submitted omap].
  - unfold submit. destruct (due _ _ _ _); rewrite ?flush_conserves;
      cbn [accept pending flushed]; by rewrite app_assoc.
  - unfold poll. destruct (due _ _ _ _); rewrite ?flush_conserves;
      by rewrite app_nil_r.
Qed.

Lemma run_conserves steps : forall st,
  concat (flushed (run' steps st)) ++ pending (run' steps st) =
  (concat (flushed st) ++ pending st) ++ submitted steps.
Proof.
  induction steps as [|a steps IH]; intros st.
  - cbn. by rewrite app_nil_r.
  - change (run' (a :: steps) st)
      with (run' steps (step max_batch_size max_batch_time a st)).
    rewrite IH, step_conserves, <- app_assoc. f_equal.
    unfold submitted. by rewrite <- omap_app.
Qed.

Lemma join_empties st : pending (join st) = [].
Proof. unfold join, flush. by destruct (pending st) eqn:Hp. Qed.

Lemma join_flushes_pending st :
  pending st <> [] -> flushed (join st) = flushed st ++ [pending st].
Proof. unfold join, flush. by destruct (pending st). Qed.

End BatchingFacts.

(** * The strategies that the factory builds *)

Section StrategyFacts.

(** C3.  [create_with_partitions] leaves the world as it is and returns,
    in multiprocessing mode, a [RunTaskWithMultiprocessing] of the
    per-message callable that carries the factory's batch size, batch
    time, pool and block sizes and feeds [CommitOffsets]; its batch is
    flushed by the submission with which the count reaches
    [max_batch_size] or the time since the first item reaches
    [max_batch_time], and by a poll after that deadline, and only
    accumulates below both limits.  In inline mode it returns a [RunTask]
    of the same callable feeding [CommitOffsets], with no pool and no
    batching. *)
Theorem create_with_partitions_strategy self f commit partitions w :
  heap w !! self = Some (ObjFactory f) ->
  exists s,
    create_with_partitions self commit partitions w = (Ok s, w)
    /\ (multi_proc f = true ->
         s = RunTaskWithMultiprocessing
               {| bound_dataset := dataset f; bound_topic := topic f;
                  bound_logical_topic := logical_topic f |}
               (CommitOffsets commit) (max_batch_size f) (max_batch_time f)
               (pool f) (input_block_size f) (output_block_size f)
         /\ batch_limits s = Some (max_batch_size f, max_batch_time f)
         /\ (forall now m st,
               max_batch_size f
                 <= Z.of_nat (length (Batching.pending st ++ [m]))
               \/ 1000 * max_batch_time f
                    <= now - default now (Batching.first_at st) ->
               Batching.submit (max_batch_size f) (max_batch_time f) now m st =
                 {| Batching.pending := [];
                    Batching.first_at := None;
                    Batching.flushed :=
                      Batching.flushed st ++ [Batching.pending st ++ [m]] |})
         /\ (forall now m st,
               Z.of_nat (length (Batching.pending st ++ [m]))
                 < max_batch_size f ->
               now - default now (Batching.first_at st)
                 < 1000 * max_batch_time f ->
               Batching.submit (max_batch_size f) (max_batch_time f) now m st =
                 {| Batching.pending := Batching.pending st ++ [m];
                    Batching.first_at :=
                      Some (default now (Batching.first_at st));
                    Batching.flushed := Batching.flushed st |})
         /\ (forall now t0 st,
               Batching.first_at st = Some t0 ->
               Batching.pending st <> [] ->
               1000 * max_batch_time f <= now - t0 ->
               Batching.poll (max_batch_size f) (max_batch_time f) now st =
                 {| Batching.pending := [];
                    Batching.first_at := None;
                    Batching.flushed :=
                      Batching.flushed st ++ [Batching.pending st] |}))
    /\ (multi_proc f = false ->
         s = RunTask
               {| bound_dataset := dataset f; bound_topic := topic f;
                  bound_logical_topic := logical_topic f |}
               (CommitOffsets commit)
         /\ strategy_pool s = None
         /\ batch_limits s = None).
Proof.
  intros Hf. eexists. split; [exact (create_with_partitions_eq _ _ _ _ _ Hf)|].
  split; intros Hmp; rewrite Hmp.
  - split; [reflexivity|]. split; [reflexivity|].
    split; [|split].
    + intros now m st. apply submit_flushes.
    + intros now m st. apply submit_accumulates.
    + intros now t0 st. apply poll_flushes_at_deadline.
  - by repeat split.
Qed.

(** C7.  Teardown with whatever has been accumulated so far: the pending
    batch is flushed downstream, nothing stays buffered, every message ever
    submitted has gone downstream in submission order, and the pool is
    closed afterwards. *)
Theorem teardown_flushes_partial_batch
    max_batch_size max_batch_time self f p steps w :
  heap w !! self = Some (ObjFactory f) ->
  heap w !! pool f = Some (ObjPool p) ->
  exists w',
    teardown self
      (Batching.run max_batch_size max_batch_time steps Batching.init) w =
      (Ok (Batching.join
             (Batching.run max_batch_size max_batch_time steps Batching.init)),
       w')
    /\ heap w' !! pool f = Some closed_pool
    /\ Batching.pending
         (Batching.join
            (Batching.run max_batch_size max_batch_time steps Batching.init))
       = []
    /\ (Batching.pending
          (Batching.run max_batch_size max_batch_time steps Batching.init)
          <> [] ->
        Batching.flushed
          (Batching.join
             (Batching.run max_batch_size max_batch_time steps Batching.init))
        = Batching.flushed
            (Batching.run max_batch_size max_batch_time steps Batching.init)
          ++ [Batching.pending
                (Batching.run max_batch_size max_batch_time steps
                   Batching.init)])
    /\ concat
         (Batching.flushed
            (Batching.join
               (Batching.run max_batch_size max_batch_time steps
                  Batching.init)))
       = Batching.submitted steps.
Proof.
  intros Hf Hp.
  set (st := Batching.run max_batch_size max_batch_time steps Batching.init).
  eexists. split.
  { unfold teardown, bind. rewrite (shutdown_eq self f p w Hf Hp).
    reflexivity. }
  cbn [heap set_heap]. split; [by rewrite lookup_insert_eq|].
  split; [apply join_empties|]. split; [apply join_flushes_pending|].
  pose proof (flush_conserves st) as Hfl.
  pose proof (run_conserves max_batch_size max_batch_time steps Batching.init)
    as Hrun.
  fold st in Hrun. cbn in Hrun. rewrite <- Hrun, <- Hfl.
  change (Batching.flush st) with (Batching.join st).
  by rewrite join_empties, app_nil_r.
Qed.

End StrategyFacts.

(** The sample factory at work. *)
Lemma create_with_partitions_strategy_witness :
  exists s,
    create_with_partitions 1%nat {| commit_id := 0 |} [] (sample_world true) =
      (Ok s, sample_world true)
    /\ batch_limits s = Some (10, 1)
    /\ strategy_pool s = Some 0%nat.
Proof.
  destruct (create_with_partitions_strategy 1%nat (sample_factory true)
              {| commit_id := 0 |} [] (sample_world true) eq_refl)
    as (s & Hs & Hmulti & _).
  destruct (Hmulti eq_refl) as (-> & Hlim & _).
  exists (RunTaskWithMultiprocessing
            {| bound_dataset := Events; bound_topic := events_topic;
               bound_logical_topic := events_topic |}
            (CommitOffsets {| commit_id := 0 |}) 10 1 0%nat None None).
  split; [exact Hs|]. split; [exact Hlim|reflexivity].
Defined.

Lemma teardown_flushes_partial_batch_witness :
  Batching.pending (Batching.run 10 1 four_submissions Batching.init) =
    [sample_message 0; sample_message 1; sample_message 2; sample_message 3]
  /\ exists w',
       teardown 1%nat (Batching.run 10 1 four_submissions Batching.init)
         (sample_world true) =
         (Ok {| Batching.pending := []; Batching.first_at := None;
                Batching.flushed :=
                  [[sample_message 0; sample_message 1; sample_message 2;
                    sample_message 3]] |}, w')
       /\ heap w' !! 0%nat = Some closed_pool.
Proof.
  split; [reflexivity|].
  destruct (teardown_flushes_partial_batch 10 1 1%nat (sample_factory true)
              {| slots := 4; in_flight := []; pool_closed := false |}
              four_submissions (sample_world true) eq_refl eq_refl)
    as (w' & Ht & Hp & _).
  exists w'. split; [exact Ht | exact Hp].
Defined.

(** The batch triggers of section 8 of the specification: ten submissions
    with no time elapsed give exactly one flush, of those ten messages; three
    submissions followed by a poll 1.5 s later give one flush of those
    three. *)
Example batch_trigger_by_count :
  Batching.run 10 1
    (map (fun i => Batching.Submit 0 (sample_message i)) [0;1;2;3;4;5;6;7;8;9])
    Batching.init =
  {| Batching.pending := []; Batching.first_at := None;
     Batching.flushed := [map sample_message [0;1;2;3;4;5;6;7;8;9]] |}.
Proof. reflexivity. Qed.

Example batch_trigger_by_time :
  Batching.run 10 1
    [Batching.Submit 0 (sample_message 0); Batching.Submit 100 (sample_message 1);
     Batching.Submit 200 (sample_message 2); Batching.Poll 1700]
    Batching.init =
  {| Batching.pending := []; Batching.first_at := None;
     Batching.flushed := [map sample_message [0;1;2]] |}
  /\ Batching.flushed
       (Batching.run 10 1
          [Batching.Submit 0 (sample_message 0);
           Batching.Submit 100 (sample_message 1);
           Batching.Submit 200 (sample_message 2); Batching.Poll 999]
          Batching.init) = [].
Proof. split; reflexivity. Qed.

(** * Properties of the consumer *)

Section ConsumerFacts.

Variable topic_to_dataset : gmap string Dataset.
Variable dataset_to_logical_topic : gmap Dataset string.
Variable os_can_allocate : Z -> bool.
Variable get_topic_definition : string -> Res (gmap string string).
Variable get_kafka_consumer_cluster_options :
  string -> Res (list (string * string)).
Variable kafka_consumer_error : KafkaConfiguration -> option PyExc.

Local Abbreviation init :=
  (__init__ topic_to_dataset dataset_to_logical_topic os_can_allocate).
Local Abbreviation get_consumer :=
  (get_query_subscription_consumer topic_to_dataset dataset_to_logical_topic
     os_can_allocate get_topic_definition get_kafka_consumer_cluster_options
     kafka_consumer_error).

(** The consumer up to the construction of the factory: the metrics are
    registered, the Kafka consumer is built, and then the factory is
    constructed. *)
Lemma get_query_subscription_consumer_eq
    topic group_id sor ior mbs mbt n ibs obs mp defn cluster opts w :
  get_topic_definition topic = Ok defn ->
  defn !! "cluster" = Some cluster ->
  get_kafka_consumer_cluster_options cluster = Ok opts ->
  configured_metrics w = None ->
  kafka_consumer_error
    (build_kafka_consumer_configuration opts group_id sor ior) = None ->
  get_consumer topic group_id sor ior mbs mbt n ibs obs mp w =
    match init topic mbs mbt n ibs obs mp
            (consumer_built
               (build_kafka_consumer_configuration opts group_id sor ior)
               (metrics_registered group_id w))
    with
    | (Ok factory, w') =>
        (Ok {| consumer := fresh (dom (heap w));
               processor_topic := {| topic_name := topic |};
               processor_factory := factory;
               commit_policy := ONCE_PER_SECOND |}, w')
    | (Raise e, w') => (Raise e, w')
    end.
Proof.
  intros Hdef Hcl Hopts Hm Hk.
  unfold get_query_subscription_consumer, bind at 1, lift. rewrite Hdef.
  unfold bind at 1, dict_getitem. rewrite Hcl. unfold ret at 1.
  unfold bind at 1. rewrite Hopts.
  unfold bind at 1, initialize_metrics, configure_metrics. rewrite Hm.
  unfold bind at 1, new_KafkaConsumer. rewrite Hk. unfold alloc.
  cbn [heap]. fold (metrics_registered group_id w).
  change (set_heap _ (metrics_registered group_id w))
    with (consumer_built
            (build_kafka_consumer_configuration opts group_id sor ior)
            (metrics_registered group_id w)).
  unfold bind. by destruct (init _ _ _ _ _ _ _ _) as [[factory|e] w'].
Qed.

(** C4, as amended.  When the topic has a dataset and the dataset a
    logical topic (and the pool can be started), the construction succeeds
    and binds topic, dataset and logical topic, which no later call of
    [create_with_partitions] or [shutdown] changes.  When the topic has no
    dataset the construction raises [KeyError] for the topic, and when the
    dataset has no logical topic it raises [KeyError] for the dataset.  In a
    process without registered metrics and with a Kafka configuration that
    the client accepts, the error leaves [get_query_subscription_consumer]
    as it is: no stream processor exists, and besides the registered metrics
    and the Kafka consumer, which are set up first, nothing has come into
    being, neither pool nor factory. *)
Theorem init_binds_topic_or_raises_KeyError name mbs mbt n ibs obs mp w :
  (forall d lt,
     topic_to_dataset !! name = Some d ->
     dataset_to_logical_topic !! d = Some lt ->
     os_can_allocate n = true ->
     exists self f w1,
       init name mbs mbt n ibs obs mp w = (Ok self, w1)
       /\ heap w1 !! self = Some (ObjFactory f)
       /\ topic f = name /\ dataset f = d /\ logical_topic f = lt
       /\ (forall calls,
             heap (rebalances self calls w1).2 !! self = Some (ObjFactory f))
       /\ heap (shutdown self w1).2 !! self = Some (ObjFactory f))
  /\ (topic_to_dataset !! name = None ->
      init name mbs mbt n ibs obs mp w = (Raise (KeyError name), w)
      /\ forall group_id sor ior defn cluster opts,
           get_topic_definition name = Ok defn ->
           defn !! "cluster" = Some cluster ->
           get_kafka_consumer_cluster_options cluster = Ok opts ->
           configured_metrics w = None ->
           kafka_consumer_error
             (build_kafka_consumer_configuration opts group_id sor ior)
             = None ->
           get_consumer name group_id sor ior mbs mbt n ibs obs mp w =
             (Raise (KeyError name),
              consumer_built
                (build_kafka_consumer_configuration opts group_id sor ior)
                (metrics_registered group_id w)))
  /\ (forall d,
       topic_to_dataset !! name = Some d ->
       dataset_to_logical_topic !! d = None ->
       init name mbs mbt n ibs obs mp w =
         (Raise (KeyError (dataset_name d)), w)).
Proof.
  split; [|split].
  - intros d lt Hd Hlt Hos.
    destruct (init_allocates _ _ _ name mbs mbt n ibs obs mp d lt w
                Hd Hlt Hos)
      as (self & p & w1 & Hinit & Hp0 & Hs0 & Hne & Hp1 & Hs1 & _).
    eexists self, _, w1. split; [exact Hinit|]. split; [exact Hs1|].
    cbn [topic dataset logical_topic]. repeat split.
    + intros calls.
      destruct (rebalances_eq self _ calls w1 Hs1) as (ss & -> & _).
      exact Hs1.
    + rewrite (shutdown_eq self _ _ w1 Hs1 Hp1). cbn [snd heap set_heap pool].
      by rewrite lookup_insert_ne.
  - intros Hd.
    pose proof (init_unknown_topic topic_to_dataset dataset_to_logical_topic
                  os_can_allocate name mbs mbt n ibs obs mp) as Hinit.
    split; [by apply Hinit|].
    intros group_id sor ior defn cluster opts Hdef Hcl Hopts Hm Hk.
    rewrite (get_query_subscription_consumer_eq _ _ _ _ _ _ _ _ _ _ _ _ _ _
               Hdef Hcl Hopts Hm Hk).
    by rewrite (Hinit _ Hd).
  - intros d Hd Hlt. unfold __init__, dict_getitem, bind.
    rewrite Hd. cbn. by rewrite Hlt.
Qed.

(** With [ONCE_PER_SECOND] only the clock decides. *)
Lemma should_commit_once_per_second elapsed_ms messages :
  should_commit ONCE_PER_SECOND elapsed_ms messages = (1000 <=? elapsed_ms).
Proof. reflexivity. Qed.

Lemma record_all_within_interval arrivals : forall c,
  Forall (fun a => a.1 - last_commit c < 1000) arrivals ->
  committed (record_all ONCE_PER_SECOND arrivals c) = committed c.
Proof.
  induction arrivals as [|[now offsets] rest IH]; intros c Hall; [done|].
  inversion Hall as [|? ? Hnow Hrest]; subst. cbn [fst] in Hnow.
  change (record_all ONCE_PER_SECOND ((now, offsets) :: rest) c)
    with (record_all ONCE_PER_SECOND rest
            (record_offsets ONCE_PER_SECOND now offsets c)).
  unfold record_offsets. rewrite should_commit_once_per_second.
  replace (1000 <=? now - last_commit c) with false
    by (symmetry; by apply Z.leb_gt).
  by rewrite IH.
Qed.

(** C5.  For a configuration whose lookups succeed and which the Kafka
    client accepts, in a process without registered metrics, the consumer is
    built with [ONCE_PER_SECOND]: whether a commit is due depends on the time
    since the last commit only; any number of messages recorded within one
    second of the last commit causes no commit, and a message recorded one
    second or more after it commits everything recorded. *)
Theorem consumer_commits_once_per_second
    topic group_id sor ior mbs mbt n ibs obs mp defn cluster opts d lt w :
  get_topic_definition topic = Ok defn ->
  defn !! "cluster" = Some cluster ->
  get_kafka_consumer_cluster_options cluster = Ok opts ->
  configured_metrics w = None ->
  kafka_consumer_error
    (build_kafka_consumer_configuration opts group_id sor ior) = None ->
  topic_to_dataset !! topic = Some d ->
  dataset_to_logical_topic !! d = Some lt ->
  os_can_allocate n = true ->
  exists sp w',
    get_consumer topic group_id sor ior mbs mbt n ibs obs mp w = (Ok sp, w')
    /\ commit_policy sp = ONCE_PER_SECOND
    /\ (forall elapsed_ms messages,
          should_commit (commit_policy sp) elapsed_ms messages =
            (1000 <=? elapsed_ms))
    /\ (forall arrivals c,
          Forall (fun a => a.1 - last_commit c < 1000) arrivals ->
          committed (record_all (commit_policy sp) arrivals c) = committed c)
    /\ (forall now offsets c,
          1000 <= now - last_commit c ->
          committed (record_offsets (commit_policy sp) now offsets c) =
            committed c ++ [(now, recorded c ++ offsets)]).
Proof.
  intros Hdef Hcl Hopts Hm Hk Hd Hlt Hos.
  rewrite (get_query_subscription_consumer_eq _ _ _ _ _ _ _ _ _ _ _ _ _ _
             Hdef Hcl Hopts Hm Hk).
  rewrite (init_success _ _ _ _ _ _ _ _ _ _ _ _ _ Hd Hlt Hos).
  eexists _, _. split; [reflexivity|]. cbn [commit_policy].
  split; [reflexivity|]. split; [apply should_commit_once_per_second|].
  split; [apply record_all_within_interval|].
  intros now offsets c Hnow. unfold record_offsets.
  rewrite should_commit_once_per_second.
  replace (1000 <=? now - last_commit c) with true
    by (symmetry; by apply Z.leb_le).
  reflexivity.
Qed.

End ConsumerFacts.

(** In an empty process the pool is allocated at location 0 and the factory
    at location 1. *)
Example init_on_empty_world :
  (__init__ sample_topic_to_dataset sample_dataset_to_logical_topic
     always_allocates events_topic 10 1 4 None None true empty_world).1 =
    Ok 1%nat
  /\ heap (__init__ sample_topic_to_dataset sample_dataset_to_logical_topic
             always_allocates events_topic 10 1 4 None None true empty_world).2
       !! 0%nat = Some (started_pool 4).
Proof. split; vm_compute; reflexivity. Qed.

(** When the operating system refuses the processes, nothing is built. *)
Example init_without_processes :
  __init__ sample_topic_to_dataset sample_dataset_to_logical_topic
    (fun n => 0 <? n) events_topic 10 1 0 None None true empty_world =
    (Raise (OSError "cannot allocate worker processes"), empty_world).
Proof. reflexivity. Qed.

(** The lifecycle of the pool on the sample tables, from an empty process. *)
Lemma factory_starts_and_closes_pool_witness :
  exists self f w1 w3,
    __init__ sample_topic_to_dataset sample_dataset_to_logical_topic
      always_allocates events_topic 10 1 4 None None true empty_world =
      (Ok self, w1)
    /\ heap w1 !! self = Some (ObjFactory f)
    /\ heap w1 !! pool f = Some (started_pool 4)
    /\ heap w3 !! pool f = Some closed_pool
    /\ pool_submit (pool f) [sample_message 0] w3 = (Raise PoolClosedError, w3).
Proof.
  destruct (factory_starts_and_closes_pool sample_topic_to_dataset
              sample_dataset_to_logical_topic always_allocates events_topic
              10 1 4 None None true Events events_topic empty_world
              [[sample_message 0]] eq_refl eq_refl eq_refl)
    as (self & f & w1 & w2 & w3 & Hinit & Hs & _ & Hp1 & _ & _ & _ & Hp3 & _ & Hsub).
  exists self, f, w1, w3. repeat split; [exact Hinit|exact Hs|exact Hp1|exact Hp3|].
  apply Hsub.
Defined.

Lemma pool_allocated_even_when_inline_witness :
  exists self f w1 w2,
    __init__ sample_topic_to_dataset sample_dataset_to_logical_topic
      always_allocates events_topic 10 1 4 None None false empty_world =
      (Ok self, w1)
    /\ heap w1 !! self = Some (ObjFactory f)
    /\ multi_proc f = false
    /\ heap w1 !! pool f = Some (started_pool 4)
    /\ shutdown self w1 = (Ok tt, w2)
    /\ heap w2 !! pool f = Some closed_pool.
Proof.
  destruct (pool_allocated_even_when_inline sample_topic_to_dataset
              sample_dataset_to_logical_topic always_allocates events_topic
              10 1 4 None None Events events_topic empty_world
              [({| commit_id := 0 |}, [])] eq_refl eq_refl eq_refl)
    as (self & f & w1 & w2 & ss & Hinit & Hs & Hmp & _ & Hp1 & _ & _ & _ & _
        & Hsh & Hp2).
  exists self, f, w1, w2.
  repeat split; [exact Hinit|exact Hs|exact Hmp|exact Hp1|exact Hsh|exact Hp2].
Defined.

(** Two rebalances on the sample factory. *)
Lemma create_with_partitions_frame_witness :
  exists ss,
    rebalances 1%nat [({| commit_id := 0 |}, []); ({| commit_id := 1 |}, [])]
      (sample_world true) = (Ok ss, sample_world true)
    /\ Forall (fun s => strategy_pool s = Some 0%nat) ss.
Proof.
  destruct (create_with_partitions_frame 1%nat (sample_factory true)
              [({| commit_id := 0 |}, []); ({| commit_id := 1 |}, [])]
              (sample_world true) eq_refl)
    as (ss & Hr & _ & _ & _ & Hall & _).
  exists ss. split; [exact Hr | exact (Hall eq_refl)].
Defined.

(** The amended C4 on the sample tables: the registered topic is bound, an
    unregistered one raises [KeyError]. *)
Lemma init_binds_topic_or_raises_KeyError_witness :
  (exists self f w1,
     __init__ sample_topic_to_dataset sample_dataset_to_logical_topic
       always_allocates events_topic 10 1 4 None None true empty_world =
       (Ok self, w1)
     /\ heap w1 !! self = Some (ObjFactory f)
     /\ topic f = events_topic /\ dataset f = Events
     /\ logical_topic f = events_topic)
  /\ __init__ sample_topic_to_dataset sample_dataset_to_logical_topic
       always_allocates "no-such-topic" 10 1 4 None None true empty_world =
       (Raise (KeyError "no-such-topic"), empty_world).
Proof.
  split.
  - destruct (proj1 (init_binds_topic_or_raises_KeyError
                       sample_topic_to_dataset sample_dataset_to_logical_topic
                       always_allocates sample_topic_definition
                       sample_cluster_options accepting_kafka events_topic 10 1 4 None None
                       true empty_world)
                Events events_topic eq_refl eq_refl eq_refl)
      as (self & f & w1 & Hinit & Hs & Ht & Hd & Hlt & _).
    exists self, f, w1. repeat split; assumption.
  - apply (proj1 (proj2 (init_binds_topic_or_raises_KeyError
                           sample_topic_to_dataset
                           sample_dataset_to_logical_topic always_allocates
                           sample_topic_definition sample_cluster_options accepting_kafka
                           "no-such-topic" 10 1 4 None None true empty_world))
             eq_refl).
Defined.

(** C4 as stated fails.  For a topic without a dataset the construction, and
    with it [get_query_subscription_consumer], raises the dictionary's
    [KeyError]; no [UnknownTopicError] is raised. *)
Lemma init_unknown_topic_raises_KeyError :
  sample_topic_to_dataset !! "no-such-topic" = None
  /\ (__init__ sample_topic_to_dataset sample_dataset_to_logical_topic
        always_allocates "no-such-topic" 10 1 4 None None true empty_world).1 =
     Raise (KeyError "no-such-topic")
  /\ (get_query_subscription_consumer sample_topic_to_dataset
        sample_dataset_to_logical_topic always_allocates
        sample_topic_definition sample_cluster_options accepting_kafka
        "no-such-topic" "group" false "latest" 10 1 4 None None true
        empty_world).1 = Raise (KeyError "no-such-topic")
  /\ KeyError "no-such-topic" <> OtherException "UnknownTopicError".
Proof. repeat split. discriminate. Qed.

(** The consumer on the sample configuration. *)
Lemma consumer_commits_once_per_second_witness :
  exists sp w',
    get_query_subscription_consumer sample_topic_to_dataset
      sample_dataset_to_logical_topic always_allocates
      sample_topic_definition sample_cluster_options accepting_kafka
      events_topic "group" false "latest" 10 1 4 None None false empty_world =
      (Ok sp, w')
    /\ commit_policy sp = ONCE_PER_SECOND
    /\ should_commit (commit_policy sp) 999 1000000 = false
    /\ should_commit (commit_policy sp) 1000 0 = true.
Proof.
  destruct (consumer_commits_once_per_second sample_topic_to_dataset
              sample_dataset_to_logical_topic always_allocates
              sample_topic_definition sample_cluster_options accepting_kafka
              events_topic "group" false "latest" 10 1 4 None None false
              {[ "cluster" := "default" ]} "default"
              [("bootstrap.servers", "127.0.0.1:9092")] Events events_topic
              empty_world eq_refl eq_refl eq_refl eq_refl eq_refl eq_refl
              eq_refl eq_refl)
    as (sp & w' & Hc & Hpol & Hsc & _).
  exists sp, w'. split; [exact Hc|]. split; [exact Hpol|].
  split; apply Hsc.
Defined.


(** * Further properties of the per-message processor *)

Section ProcessorOutcomes.

Variable handle_message : HandlerArgs -> Trace -> Res unit.
Variable get_codec : string -> Res Codec.
Variable in_random_rollout : string -> bool.

Local Abbreviation process :=
  (process_message handle_message get_codec in_random_rollout).
Local Abbreviation invoke := (invocation handle_message get_codec).
Local Abbreviation entry := (entry_events in_random_rollout).

(** What the guarded statement adds to the trace is at most the handler
    call. *)
Lemma invocation_adds dataset topic logical_topic bv tr :
  exists calls,
    (invoke dataset topic logical_topic bv tr).2 = tr ++ calls
    /\ Forall (fun ev => is_span_event ev = false) calls
    /\ logged calls = []
    /\ (length (handler_calls calls) <= 1)%nat.
Proof.
  rewrite invocation_trace. destruct (get_codec logical_topic) as [codec|e].
  - eexists. split; [reflexivity|]. repeat split; [|cbn; lia].
    by repeat constructor.
  - exists []. rewrite app_nil_r. repeat split; [constructor | cbn; lia].
Qed.

(** A value that is no broker value stops at the assertion. *)
Lemma process_message_plain_value dataset topic logical_topic p c tr :
  process dataset topic logical_topic {| value := IsValue p c |} tr =
    (Raise AssertionError, tr ++ entry dataset ++ exit_events)
  /\ handler_calls (tr ++ entry dataset ++ exit_events) = handler_calls tr
  /\ logged (tr ++ entry dataset ++ exit_events) = logged tr.
Proof.
  split; [|split].
  - unfold process_message, with_start_transaction, with_timer.
    cbn. by rewrite <- !app_assoc.
  - rewrite handler_calls_app. cbn. by rewrite app_nil_r.
  - rewrite logged_app. cbn. by rewrite app_nil_r.
Qed.

(** X1.  Whatever the message is and however handling it ends, the trace
    that [process_message] leaves starts with the opening of the transaction
    and of the timer and ends with the closing of the timer and of the
    transaction, with no span event in between. *)
Theorem process_message_spans_balanced dataset topic logical_topic m tr :
  exists mid,
    (process dataset topic logical_topic m tr).2 =
      tr ++ entry dataset ++ mid ++ exit_events
    /\ Forall (fun ev => is_span_event ev = false) mid.
Proof.
  destruct (value m) as [bv|p c] eqn:Hv.
  - rewrite (process_message_broker_value _ _ _ _ _ _ _ _ _ Hv).
    destruct (invocation_adds dataset topic logical_topic bv
                (tr ++ entry dataset)) as (calls & Ht & Hspan & _).
    destruct (invoke _ _ _ _ _) as [[[]|e] tr1]; cbn [snd] in *; subst tr1.
    + exists calls. by rewrite <- !app_assoc.
    + destruct (isinstance_Exception e); cbn [snd].
      * exists (calls ++ [EvLogException skip_message e (log_extra bv)]).
        rewrite <- !app_assoc. split; [reflexivity|].
        apply Forall_app. split; [exact Hspan|]. by repeat constructor.
      * exists calls. by rewrite <- !app_assoc.
  - exists []. split; [|constructor].
    unfold process_message, with_start_transaction, with_timer.
    rewrite Hv. cbn. by rewrite <- !app_assoc.
Qed.

(** X2.  An exception leaves [process_message] in two cases only: the
    assertion error for a value that is no broker value, and an exception
    raised by the guarded call that is no instance of [Exception].  In both
    cases no log record has been written. *)
Theorem process_message_escapes dataset topic logical_topic m tr e :
  (process dataset topic logical_topic m tr).1 = Raise e ->
  logged (process dataset topic logical_topic m tr).2 = logged tr
  /\ ((exists p c,
         value m = IsValue p c /\ e = AssertionError
         /\ handler_calls (process dataset topic logical_topic m tr).2 =
              handler_calls tr)
      \/ (exists bv,
            value m = IsBrokerValue bv
            /\ isinstance_Exception e = false
            /\ (invoke dataset topic logical_topic bv
                  (tr ++ entry dataset)).1 = Raise e)).
Proof.
  destruct (value m) as [bv|p c] eqn:Hv.
  - rewrite (process_message_broker_value _ _ _ _ _ _ _ _ _ Hv).
    destruct (invocation_adds dataset topic logical_topic bv
                (tr ++ entry dataset)) as (calls & Ht & _ & Hlog & _).
    destruct (invoke _ _ _ _ _) as [[[]|e'] tr1] eqn:Hinv; cbn [fst snd] in *;
      [discriminate|].
    destruct (isinstance_Exception e') eqn:He; cbn [fst snd];
      [discriminate|].
    intros [= ->]. subst tr1. split.
    + rewrite !logged_app, Hlog. cbn. by rewrite !app_nil_r.
    + right. exists bv. rewrite Hinv. repeat split; assumption.
  - destruct m as [v]. cbn in Hv. subst v.
    destruct (process_message_plain_value dataset topic logical_topic p c tr)
      as (Hp & Hcalls & Hlog).
    rewrite Hp. cbn [fst snd]. intros [= <-]. split; [exact Hlog|].
    left. by exists p, c.
Qed.

Lemma commits_app tr1 tr2 : commits (tr1 ++ tr2) = commits tr1 ++ commits tr2.
Proof. apply omap_app. Qed.

(** Under a handler and a codec lookup that raise instances of [Exception]
    only, a broker message is always absorbed. *)
Lemma process_message_absorbs dataset topic logical_topic bv tr :
  (forall args tr' e,
     handle_message args tr' = Raise e -> isinstance_Exception e = true) ->
  (forall e, get_codec logical_topic = Raise e -> isinstance_Exception e = true) ->
  exists mid,
    process dataset topic logical_topic (broker_message bv) tr =
      (Ok tt, tr ++ mid)
    /\ commits mid = []
    /\ (forall codec,
          get_codec logical_topic = Ok codec ->
          handler_calls mid = [handler_args dataset topic bv codec])
    /\ (length (logged mid) <= 1)%nat.
Proof.
  intros Hh Hc.
  rewrite (process_message_broker_value _ _ _ _ _ _ (broker_message bv) bv tr
             eq_refl).
  unfold invocation, bind, lift, call_handle_message.
  destruct (get_codec logical_topic) as [codec|e] eqn:Hcodec.
  - destruct (handle_message _ _) as [[]|e] eqn:Hcall.
    + eexists. rewrite <- !app_assoc. split; [reflexivity|].
      split; [reflexivity|]. split; [|cbn; lia].
      by intros codec' [= <-].
    + rewrite (Hh _ _ _ Hcall).
      eexists. rewrite <- !app_assoc. split; [reflexivity|].
      split; [reflexivity|]. split; [|cbn; lia].
      by intros codec' [= <-].
  - rewrite (Hc _ eq_refl).
    eexists. rewrite <- !app_assoc. split; [reflexivity|].
    split; [reflexivity|]. split; [|cbn; lia].
    intros codec' [=].
Qed.

(** X3.  With a handler and a codec lookup that raise instances of
    [Exception] only, the inline pipeline gets through any list of broker
    messages: it returns normally, commits every message's next offset in
    arrival order, hands every message to the handler once and in arrival
    order when the codec is found, and logs at most one record per
    message. *)
Theorem run_inline_commits_in_order dataset topic logical_topic bvs : forall tr,
  (forall args tr' e,
     handle_message args tr' = Raise e -> isinstance_Exception e = true) ->
  (forall e, get_codec logical_topic = Raise e -> isinstance_Exception e = true) ->
  exists tr',
    run_inline (process dataset topic logical_topic) (map broker_message bvs) tr
      = (Ok tt, tr')
    /\ commits tr' =
         commits tr ++ map (fun bv => [(partition bv, offset bv + 1)]) bvs
    /\ (forall codec,
          get_codec logical_topic = Ok codec ->
          handler_calls tr' =
            handler_calls tr
              ++ map (fun bv => handler_args dataset topic bv codec) bvs)
    /\ (length (logged tr') <= length (logged tr) + length bvs)%nat.
Proof.
  induction bvs as [|bv rest IH]; intros tr Hh Hc.
  - exists tr. cbn. rewrite !app_nil_r.
    split; [reflexivity|]. split; [reflexivity|]. split; [|lia].
    reflexivity.
  - destruct (process_message_absorbs dataset topic logical_topic bv tr Hh Hc)
      as (mid & Hp & Hcm & Hcalls & Hlog).
    destruct (IH ((tr ++ mid) ++ [EvCommit (committable (broker_message bv))])
                Hh Hc) as (tr' & Hrun & Hcommits & Hhandled & Hlogged).
    exists tr'. split; [|split; [|split]].
    + cbn [map run_inline]. unfold run_task_submit, bind at 1 2.
      rewrite Hp. unfold commit_offsets_submit, emit, modify. exact Hrun.
    + rewrite Hcommits, !commits_app, Hcm. cbn.
      by rewrite app_nil_r, <- app_assoc.
    + intros codec Hcodec.
      rewrite (Hhandled codec Hcodec), !handler_calls_app, (Hcalls codec Hcodec).
      cbn. by rewrite app_nil_r, <- app_assoc.
    + rewrite !logged_app, !length_app in Hlogged. cbn in Hlogged.
      cbn [length]. lia.
Qed.

End ProcessorOutcomes.

(** * Further properties of the factory and of the consumer *)

Section FactoryOutcomes.

Variable topic_to_dataset : gmap string Dataset.
Variable dataset_to_logical_topic : gmap Dataset string.
Variable os_can_allocate : Z -> bool.
Variable get_topic_definition : string -> Res (gmap string string).
Variable get_kafka_consumer_cluster_options :
  string -> Res (list (string * string)).
Variable kafka_consumer_error : KafkaConfiguration -> option PyExc.

Local Abbreviation init :=
  (__init__ topic_to_dataset dataset_to_logical_topic os_can_allocate).
Local Abbreviation get_consumer :=
  (get_query_subscription_consumer topic_to_dataset dataset_to_logical_topic
     os_can_allocate get_topic_definition get_kafka_consumer_cluster_options
     kafka_consumer_error).

(** A failed construction has written nothing. *)
Lemma init_raise_world name mbs mbt n ibs obs mp w e w' :
  init name mbs mbt n ibs obs mp w = (Raise e, w') -> w' = w.
Proof.
  unfold __init__, dict_getitem, bind, MultiprocessingPool__init__.
  destruct (topic_to_dataset !! name) as [d|]; cbn; [|by intros [= _ <-]].
  destruct (dataset_to_logical_topic !! d) as [lt|]; cbn; [|by intros [= _ <-]].
  destruct (os_can_allocate n); cbn; [discriminate | by intros [= _ <-]].
Qed.

(** X4.  A construction that fails has one of three causes: the topic has
    no dataset ([KeyError] for the topic), the dataset has no logical topic
    ([KeyError] for the dataset), or the pool could not be started; and it
    leaves the world as it found it: the lookups come before the pool, so no
    pool is left behind. *)
Theorem init_failure_leaves_world name mbs mbt n ibs obs mp w e w' :
  init name mbs mbt n ibs obs mp w = (Raise e, w') ->
  w' = w
  /\ ((topic_to_dataset !! name = None /\ e = KeyError name)
      \/ (exists d,
            topic_to_dataset !! name = Some d
            /\ dataset_to_logical_topic !! d = None
            /\ e = KeyError (dataset_name d))
      \/ (exists d lt,
            topic_to_dataset !! name = Some d
            /\ dataset_to_logical_topic !! d = Some lt
            /\ os_can_allocate n = false
            /\ e = OSError "cannot allocate worker processes")).
Proof.
  unfold __init__, dict_getitem, bind, MultiprocessingPool__init__.
  destruct (topic_to_dataset !! name) as [d|] eqn:Hd; cbn.
  - destruct (dataset_to_logical_topic !! d) as [lt|] eqn:Hlt; cbn.
    + destruct (os_can_allocate n) eqn:Hos; cbn; [discriminate|].
      intros [= <- <-]. split; [reflexivity|]. right. right. by exists d, lt.
    + intros [= <- <-]. split; [reflexivity|]. right. left. by exists d.
  - intros [= <- <-]. split; [reflexivity|]. by left.
Qed.

(** X5.  Two factories constructed one after the other are different objects
    with different pools, and shutting the first one down closes its pool
    and leaves the pool of the second one running. *)
Theorem factories_do_not_share_pools
    name1 mbs1 mbt1 n1 ibs1 obs1 mp1 d1 lt1
    name2 mbs2 mbt2 n2 ibs2 obs2 mp2 d2 lt2 w :
  topic_to_dataset !! name1 = Some d1 ->
  dataset_to_logical_topic !! d1 = Some lt1 ->
  os_can_allocate n1 = true ->
  topic_to_dataset !! name2 = Some d2 ->
  dataset_to_logical_topic !! d2 = Some lt2 ->
  os_can_allocate n2 = true ->
  exists self1 self2 f1 f2 w1 w2 w3,
    init name1 mbs1 mbt1 n1 ibs1 obs1 mp1 w = (Ok self1, w1)
    /\ init name2 mbs2 mbt2 n2 ibs2 obs2 mp2 w1 = (Ok self2, w2)
    /\ heap w2 !! self1 = Some (ObjFactory f1)
    /\ heap w2 !! self2 = Some (ObjFactory f2)
    /\ self1 <> self2
    /\ pool f1 <> pool f2
    /\ shutdown self1 w2 = (Ok tt, w3)
    /\ heap w3 !! pool f1 = Some closed_pool
    /\ heap w3 !! pool f2 = Some (started_pool n2).
Proof.
  intros Hd1 Hlt1 Hos1 Hd2 Hlt2 Hos2.
  destruct (init_allocates _ _ _ name1 mbs1 mbt1 n1 ibs1 obs1 mp1 d1 lt1 w
              Hd1 Hlt1 Hos1)
    as (s1 & p1 & w1 & Hi1 & _ & _ & Hne1 & Hp1 & Hs1 & _ & _).
  destruct (init_allocates _ _ _ name2 mbs2 mbt2 n2 ibs2 obs2 mp2 d2 lt2 w1
              Hd2 Hlt2 Hos2)
    as (s2 & p2 & w2 & Hi2 & Hp20 & Hs20 & Hne2 & Hp2 & Hs2 & Hother & _).
  assert (Hp21 : p1 <> p2) by (intros ->; congruence).
  assert (Hs21 : s1 <> s2) by (intros ->; congruence).
  assert (Hps : p1 <> s2) by (intros ->; congruence).
  assert (Hsp : s1 <> p2) by (intros ->; congruence).
  assert (Hs1' : heap w2 !! s1 = heap w1 !! s1) by by apply Hother.
  assert (Hp1' : heap w2 !! p1 = heap w1 !! p1) by by apply Hother.
  rewrite Hs1 in Hs1'. rewrite Hp1 in Hp1'.
  eexists s1, s2, _, _, w1, w2, _.
  split; [exact Hi1|]. split; [exact Hi2|]. split; [exact Hs1'|].
  split; [exact Hs2|]. split; [exact Hs21|]. cbn [pool].
  split; [exact Hp21|].
  split; [exact (shutdown_eq s1 _ _ w2 Hs1' Hp1')|]. cbn [pool heap set_heap].
  split; [by rewrite lookup_insert_eq|].
  by rewrite lookup_insert_ne.
Qed.

(** X6.  [create_with_partitions] does not look at the state of the pool:
    called after [shutdown] it returns what it returned before, a
    multiprocessing strategy constructed with the factory's limits on the
    pool that the factory holds, now closed.  What the constructor of the
    strategy does with a closed pool is not decided here. *)
Theorem create_with_partitions_after_shutdown self f p commit partitions w :
  heap w !! self = Some (ObjFactory f) ->
  heap w !! pool f = Some (ObjPool p) ->
  multi_proc f = true ->
  exists w',
    shutdown self w = (Ok tt, w')
    /\ heap w' !! pool f = Some closed_pool
    /\ (create_with_partitions self commit partitions w').1 =
         (create_with_partitions self commit partitions w).1
    /\ (create_with_partitions self commit partitions w').1 =
         Ok (RunTaskWithMultiprocessing
               {| bound_dataset := dataset f; bound_topic := topic f;
                  bound_logical_topic := logical_topic f |}
               (CommitOffsets commit) (max_batch_size f) (max_batch_time f)
               (pool f) (input_block_size f) (output_block_size f)).
Proof.
  intros Hf Hp Hmp.
  assert (Hne : pool f <> self) by (intros Heq; rewrite Heq in Hp; congruence).
  eexists. split; [exact (shutdown_eq self f p w Hf Hp)|].
  set (w' := set_heap _ w).
  assert (Hf' : heap w' !! self = Some (ObjFactory f)).
  { subst w'. cbn. by rewrite lookup_insert_ne. }
  split; [subst w'; cbn; by rewrite lookup_insert_eq|].
  rewrite (create_with_partitions_eq _ _ _ _ _ Hf'),
    (create_with_partitions_eq _ _ _ _ _ Hf), Hmp.
  by split.
Qed.

(** X7.  In a process without registered metrics, and for a configuration
    whose lookups succeed and which the Kafka client accepts, the consumer
    hands its arguments through: the stream processor subscribes to the
    given topic, its consumer is a new object whose configuration carries
    the cluster options, the group and the two offset-reset settings, the
    metrics are registered under the consumer group, and a strategy created
    from its factory carries the batch size, batch time and block sizes that
    the consumer was asked for, or is an inline [RunTask] when [multi_proc]
    is false. *)
Theorem consumer_passes_arguments_through
    name group sor ior mbs mbt n ibs obs mp defn cluster opts d lt commit
    partitions w :
  get_topic_definition name = Ok defn ->
  defn !! "cluster" = Some cluster ->
  get_kafka_consumer_cluster_options cluster = Ok opts ->
  configured_metrics w = None ->
  kafka_consumer_error
    (build_kafka_consumer_configuration opts group sor ior) = None ->
  topic_to_dataset !! name = Some d ->
  dataset_to_logical_topic !! d = Some lt ->
  os_can_allocate n = true ->
  exists sp p w',
    get_consumer name group sor ior mbs mbt n ibs obs mp w = (Ok sp, w')
    /\ processor_topic sp = {| topic_name := name |}
    /\ heap w !! consumer sp = None
    /\ heap w' !! consumer sp =
         Some (ObjConsumer
                 {| configuration :=
                      {| cluster_options := opts; group_id := group;
                         strict_offset_reset := sor;
                         auto_offset_reset := ior |} |})
    /\ configured_metrics w' =
         Some {| metrics_name := "query_subscription_consumer";
                 metrics_tags := [("consumer_group", group)] |}
    /\ heap w' !! p = Some (started_pool n)
    /\ create_with_partitions (processor_factory sp) commit partitions w' =
         (Ok (if mp then
                RunTaskWithMultiprocessing
                  {| bound_dataset := d; bound_topic := name;
                     bound_logical_topic := lt |}
                  (CommitOffsets commit) mbs mbt p ibs obs
              else
                RunTask
                  {| bound_dataset := d; bound_topic := name;
                     bound_logical_topic := lt |}
                  (CommitOffsets commit)), w').
Proof.
  intros Hdef Hcl Hopts Hm Hk Hd Hlt Hos.
  rewrite (get_query_subscription_consumer_eq _ _ _ _ _ _ _ _ _ _ _ _ _ _ _
             _ _ _ _ _ Hdef Hcl Hopts Hm Hk).
  set (w0 := consumer_built _ _).
  destruct (init_allocates _ _ _ name mbs mbt n ibs obs mp d lt w0 Hd Hlt Hos)
    as (self & p & w' & Hinit & Hp0 & Hs0 & _ & Hp & Hs & Hother & Hmet).
  rewrite Hinit. eexists _, p, w'. split; [reflexivity|].
  cbn [processor_topic consumer processor_factory].
  assert (Hc0 : heap w0 !! fresh (dom (heap w)) =
                Some (ObjConsumer
                        {| configuration :=
                             build_kafka_consumer_configuration opts group
                               sor ior |})).
  { subst w0. unfold consumer_built, metrics_registered. cbn.
    by rewrite lookup_insert_eq. }
  split; [reflexivity|]. split; [apply fresh_loc_unused|]. split.
  { rewrite Hother; [exact Hc0| |]; intros Heq; rewrite <- Heq in *;
      congruence. }
  split; [exact Hmet|]. split; [exact Hp|].
  rewrite (create_with_partitions_eq _ _ _ _ _ Hs). cbn. by destruct mp.
Qed.

(** X8.  A failure on the way to the stream processor is handed on as it
    is, and what was set up before it stays.  When the topic definition
    cannot be read, has no cluster entry ([KeyError] for that key), or the
    cluster options cannot be read, the world is as before.  When metrics
    are registered already, the registration fails with an assertion error
    and the world is as before.  When the Kafka client refuses the
    configuration, the metrics stay registered and no object has been
    created.  When the construction of the factory fails, the metrics stay
    registered and the Kafka consumer exists, but neither a pool nor a
    factory has been created. *)
Theorem consumer_failures name group sor ior mbs mbt n ibs obs mp w :
  (forall e,
     get_topic_definition name = Raise e ->
     get_consumer name group sor ior mbs mbt n ibs obs mp w = (Raise e, w))
  /\ (forall defn,
        get_topic_definition name = Ok defn ->
        defn !! "cluster" = None ->
        get_consumer name group sor ior mbs mbt n ibs obs mp w =
          (Raise (KeyError "cluster"), w))
  /\ (forall defn cluster e,
        get_topic_definition name = Ok defn ->
        defn !! "cluster" = Some cluster ->
        get_kafka_consumer_cluster_options cluster = Raise e ->
        get_consumer name group sor ior mbs mbt n ibs obs mp w = (Raise e, w))
  /\ (forall defn cluster opts registered,
        get_topic_definition name = Ok defn ->
        defn !! "cluster" = Some cluster ->
        get_kafka_consumer_cluster_options cluster = Ok opts ->
        configured_metrics w = Some registered ->
        get_consumer name group sor ior mbs mbt n ibs obs mp w =
          (Raise AssertionError, w))
  /\ (forall defn cluster opts e,
        get_topic_definition name = Ok defn ->
        defn !! "cluster" = Some cluster ->
        get_kafka_consumer_cluster_options cluster = Ok opts ->
        configured_metrics w = None ->
        kafka_consumer_error
          (build_kafka_consumer_configuration opts group sor ior) = Some e ->
        get_consumer name group sor ior mbs mbt n ibs obs mp w =
          (Raise e, metrics_registered group w))
  /\ (forall defn cluster opts e w',
        get_topic_definition name = Ok defn ->
        defn !! "cluster" = Some cluster ->
        get_kafka_consumer_cluster_options cluster = Ok opts ->
        configured_metrics w = None ->
        kafka_consumer_error
          (build_kafka_consumer_configuration opts group sor ior) = None ->
        init name mbs mbt n ibs obs mp
          (consumer_built
             (build_kafka_consumer_configuration opts group sor ior)
             (metrics_registered group w)) = (Raise e, w') ->
        get_consumer name group sor ior mbs mbt n ibs obs mp w =
          (Raise e,
           consumer_built
             (build_kafka_consumer_configuration opts group sor ior)
             (metrics_registered group w))
        /\ forall l o,
             heap (consumer_built
                     (build_kafka_consumer_configuration opts group sor ior)
                     (metrics_registered group w)) !! l = Some o ->
             heap w !! l = Some o
             \/ (heap w !! l = None
                 /\ o = ObjConsumer
                          {| configuration :=
                               build_kafka_consumer_configuration opts group
                                 sor ior |})).
Proof.
  split; [|split; [|split; [|split; [|split]]]].
  - intros e Hdef.
    unfold get_query_subscription_consumer, bind, lift. by rewrite Hdef.
  - intros defn Hdef Hcl.
    unfold get_query_subscription_consumer, bind at 1, lift. rewrite Hdef.
    unfold bind at 1, dict_getitem. by rewrite Hcl.
  - intros defn cluster e Hdef Hcl Hopts.
    unfold get_query_subscription_consumer, bind at 1, lift. rewrite Hdef.
    unfold bind at 1, dict_getitem. rewrite Hcl. unfold ret at 1.
    unfold bind at 1. by rewrite Hopts.
  - intros defn cluster opts registered Hdef Hcl Hopts Hm.
    unfold get_query_subscription_consumer, bind at 1, lift. rewrite Hdef.
    unfold bind at 1, dict_getitem. rewrite Hcl. unfold ret at 1.
    unfold bind at 1. rewrite Hopts.
    unfold bind at 1, initialize_metrics, configure_metrics. by rewrite Hm.
  - intros defn cluster opts e Hdef Hcl Hopts Hm Hk.
    unfold get_query_subscription_consumer, bind at 1, lift. rewrite Hdef.
    unfold bind at 1, dict_getitem. rewrite Hcl. unfold ret at 1.
    unfold bind at 1. rewrite Hopts.
    unfold bind at 1, initialize_metrics, configure_metrics. rewrite Hm.
    unfold bind at 1, new_KafkaConsumer. by rewrite Hk.
  - intros defn cluster opts e w' Hdef Hcl Hopts Hm Hk Hinit.
    rewrite (get_query_subscription_consumer_eq _ _ _ _ _ _ _ _ _ _ _ _ _ _ _
               _ _ _ _ _ Hdef Hcl Hopts Hm Hk).
    rewrite Hinit, (init_raise_world _ _ _ _ _ _ _ _ _ _ Hinit).
    split; [reflexivity|].
    intros l o. unfold consumer_built, metrics_registered. cbn.
    destruct (decide (fresh (dom (heap w)) = l)) as [<-|Hne].
    + rewrite lookup_insert_eq. intros [= <-]. right.
      split; [apply fresh_loc_unused | reflexivity].
    + rewrite lookup_insert_ne by done. by left.
Qed.

End FactoryOutcomes.

(** X2 on the handler that exits at offset 7. *)
Lemma process_message_escapes_witness :
  logged
    (process_message (handler_failing_at 7 SystemExit) sample_get_codec
       never_sampled Events events_topic events_topic (sample_message 7) []).2
    = logged []
  /\ isinstance_Exception SystemExit = false.
Proof.
  destruct (process_message_escapes (handler_failing_at 7 SystemExit)
              sample_get_codec never_sampled Events events_topic events_topic
              (sample_message 7) [] SystemExit eq_refl) as [Hlog _].
  split; [exact Hlog | reflexivity].
Defined.

(** X3 on the handler that raises [ValueError] at offset 7: both messages
    are committed and both reach the handler. *)
Lemma run_inline_commits_in_order_witness :
  exists tr',
    run_inline
      (process_message (handler_failing_at 7 ValueError) sample_get_codec
         never_sampled Events events_topic events_topic)
      (map broker_message [sample_broker_value 7; sample_broker_value 8]) []
      = (Ok tt, tr')
    /\ commits tr' =
         [[(partition (sample_broker_value 7), 8)];
          [(partition (sample_broker_value 8), 9)]].
Proof.
  destruct (run_inline_commits_in_order (handler_failing_at 7 ValueError)
              sample_get_codec never_sampled Events events_topic events_topic
              [sample_broker_value 7; sample_broker_value 8] [])
    as (tr' & Hrun & Hcommits & _).
  - intros args tr e. unfold handler_failing_at.
    destruct (arg_offset args =? 7); [|discriminate].
    intros [= <-]. reflexivity.
  - intros e. vm_compute. discriminate.
  - exists tr'. split; [exact Hrun | exact Hcommits].
Defined.

Lemma init_failure_leaves_world_witness :
  __init__ sample_topic_to_dataset sample_dataset_to_logical_topic
    always_allocates "no-such-topic" 10 1 4 None None true empty_world =
    (Raise (KeyError "no-such-topic"), empty_world)
  /\ empty_world = empty_world.
Proof.
  split; [reflexivity|].
  apply (init_failure_leaves_world sample_topic_to_dataset
           sample_dataset_to_logical_topic always_allocates "no-such-topic"
           10 1 4 None None true empty_world (KeyError "no-such-topic")
           empty_world eq_refl).
Defined.

Lemma factories_do_not_share_pools_witness :
  exists self1 self2 f1 f2 w2 w3,
    heap w2 !! self1 = Some (ObjFactory f1)
    /\ heap w2 !! self2 = Some (ObjFactory f2)
    /\ pool f1 <> pool f2
    /\ shutdown self1 w2 = (Ok tt, w3)
    /\ heap w3 !! pool f2 = Some (started_pool 2).
Proof.
  destruct (factories_do_not_share_pools sample_topic_to_dataset
              sample_dataset_to_logical_topic always_allocates
              events_topic 10 1 4 None None true Events events_topic
              events_topic 5 2 2 None None false Events events_topic
              empty_world eq_refl eq_refl eq_refl eq_refl eq_refl eq_refl)
    as (s1 & s2 & f1 & f2 & w1 & w2 & w3 & _ & _ & H1 & H2 & _ & Hp & Hsh & _ & Hp2).
  exists s1, s2, f1, f2, w2, w3. repeat split; assumption.
Defined.

Lemma create_with_partitions_after_shutdown_witness :
  exists w',
    shutdown 1%nat (sample_world true) = (Ok tt, w')
    /\ heap w' !! 0%nat = Some closed_pool
    /\ (create_with_partitions 1%nat {| commit_id := 0 |} [] w').1 =
         Ok (RunTaskWithMultiprocessing
               {| bound_dataset := Events; bound_topic := events_topic;
                  bound_logical_topic := events_topic |}
               (CommitOffsets {| commit_id := 0 |}) 10 1 0%nat None None).
Proof.
  destruct (create_with_partitions_after_shutdown 1%nat (sample_factory true)
              {| slots := 4; in_flight := []; pool_closed := false |}
              {| commit_id := 0 |} [] (sample_world true)
              eq_refl eq_refl eq_refl)
    as (w' & Hsh & Hp & _ & Hs).
  exists w'. repeat split; [exact Hsh | exact Hp | exact Hs].
Defined.

Lemma consumer_passes_arguments_through_witness :
  exists sp p w',
    get_query_subscription_consumer sample_topic_to_dataset
      sample_dataset_to_logical_topic always_allocates
      sample_topic_definition sample_cluster_options accepting_kafka
      events_topic "group" false "latest" 10 1 4 None None true empty_world =
      (Ok sp, w')
    /\ create_with_partitions (processor_factory sp) {| commit_id := 0 |} [] w' =
         (Ok (RunTaskWithMultiprocessing
                {| bound_dataset := Events; bound_topic := events_topic;
                   bound_logical_topic := events_topic |}
                (CommitOffsets {| commit_id := 0 |}) 10 1 p None None), w').
Proof.
  destruct (consumer_passes_arguments_through sample_topic_to_dataset
              sample_dataset_to_logical_topic always_allocates
              sample_topic_definition sample_cluster_options accepting_kafka
              events_topic "group" false "latest" 10 1 4 None None true
              {[ "cluster" := "default" ]} "default"
              [("bootstrap.servers", "127.0.0.1:9092")] Events events_topic
              {| commit_id := 0 |} [] empty_world
              eq_refl eq_refl eq_refl eq_refl eq_refl eq_refl eq_refl eq_refl)
    as (sp & p & w' & Hc & _ & _ & _ & _ & _ & Hs).
  exists sp, p, w'. split; [exact Hc | exact Hs].
Defined.

(** X8 on a topic definition without a cluster entry, and on a process in
    which metrics are registered already. *)
Lemma consumer_failures_witness :
  get_query_subscription_consumer sample_topic_to_dataset
    sample_dataset_to_logical_topic always_allocates
    (fun _ => Ok {[ "region" := "us" ]}) sample_cluster_options
    accepting_kafka
    events_topic "group" false "latest" 10 1 4 None None true empty_world =
    (Raise (KeyError "cluster"), empty_world)
  /\ get_query_subscription_consumer sample_topic_to_dataset
       sample_dataset_to_logical_topic always_allocates
       sample_topic_definition sample_cluster_options accepting_kafka
       events_topic "group" false "latest" 10 1 4 None None true
       (metrics_registered "other" empty_world) =
     (Raise AssertionError, metrics_registered "other" empty_world).
Proof.
  split.
  - destruct (consumer_failures sample_topic_to_dataset
                sample_dataset_to_logical_topic always_allocates
                (fun _ => Ok {[ "region" := "us" ]}) sample_cluster_options
                accepting_kafka
                events_topic "group" false "latest" 10 1 4 None None
                true empty_world) as (_ & Hcluster & _).
    apply (Hcluster {[ "region" := "us" ]}); reflexivity.
  - destruct (consumer_failures sample_topic_to_dataset
                sample_dataset_to_logical_topic always_allocates
                sample_topic_definition sample_cluster_options
                accepting_kafka
                events_topic "group" false "latest" 10 1 4 None None
                true (metrics_registered "other" empty_world))
      as (_ & _ & _ & Hregistered & _).
    eapply (Hregistered {[ "cluster" := "default" ]} "default"); reflexivity.
Defined.

(** * Properties of [parse_stats_period] and [get_interval_from_range] *)

Section DatesFacts.

Variable int_max_str_digits : nat.

Local Abbreviation parse := (parse_stats_period int_max_str_digits).

Lemma append_nil_l (s : string) : "" +:+ s = s.
Proof. reflexivity. Qed.

Lemma append_cons c (s1 s2 : string) :
  String c s1 +:+ s2 = String c (s1 +:+ s2).
Proof. reflexivity. Qed.

Lemma span_digits_app ds rest :
  all_digits ds = true ->
  starts_without_digit rest ->
  span_digits (ds +:+ rest) = (ds, rest).
Proof.
  intros Hds Hrest.
  induction ds as [|c ds IH]; cbn [all_digits] in *.
  - rewrite append_nil_l.
    destruct rest as [|c r]; cbn [span_digits starts_without_digit] in *;
      [done|]. by rewrite Hrest.
  - apply andb_true_iff in Hds as [Hc Hds].
    rewrite append_cons. cbn [span_digits]. by rewrite Hc, IH.
Qed.

Lemma span_digits_inv s : forall ds rest,
  span_digits s = (ds, rest) ->
  s = ds +:+ rest /\ all_digits ds = true /\ starts_without_digit rest.
Proof.
  induction s as [|c s IH]; intros ds rest; cbn [span_digits].
  - by intros [= <- <-].
  - destruct (is_digit c) eqn:Hc.
    + destruct (span_digits s) as [ds' r']. intros [= <- <-].
      destruct (IH ds' r' eq_refl) as (-> & Hds & Hr).
      rewrite append_cons. cbn [all_digits]. by rewrite Hc, Hds.
    + intros [= <- <-]. rewrite append_nil_l.
      by cbn [all_digits starts_without_digit].
Qed.

Lemma int_of_digits_nonneg ds : all_digits ds = true -> 0 <= int_of_digits ds.
Proof.
  unfold int_of_digits.
  assert (H : forall acc, 0 <= acc -> all_digits ds = true ->
            0 <= fold_left (fun acc c => 10 * acc + digit_value c)
                   (String.list_ascii_of_string ds) acc).
  { induction ds as [|c ds IH]; intros acc Hacc Hds;
      cbn [String.list_ascii_of_string fold_left all_digits] in *; [done|].
    apply andb_true_iff in Hds as [Hc Hds]. apply IH; [|done].
    unfold is_digit in Hc. apply andb_true_iff in Hc as [Hlo _].
    apply Nat.leb_le in Hlo. unfold digit_value. lia. }
  intros Hds. by apply H.
Qed.

(** The duration that a number of units comes to: the product, or the
    largest [timedelta] when the product is beyond it. *)
Lemma timedelta_of_saturates kw unit value :
  timedelta_keyword kw = Some unit ->
  0 <= value -> 0 <= unit ->
  res_try (res_bind (timedelta_of kw value) (fun d => Ok (Some d)))
    is_OverflowError (fun _ => Ok (Some timedelta_max)) =
  Ok (Some (Z.min (value * unit) timedelta_max)).
Proof.
  intros Hkw Hv Hu. unfold timedelta_of. rewrite Hkw. cbn zeta.
  assert (Hmin : timedelta_min <= value * unit).
  { transitivity 0; [done | nia]. }
  apply Z.leb_le in Hmin. rewrite Hmin. cbn [andb].
  destruct (value * unit <=? timedelta_max) eqn:Hmax; cbn.
  - apply Z.leb_le in Hmax. by rewrite Z.min_l.
  - apply Z.leb_gt in Hmax. rewrite Z.min_r by lia. reflexivity.
Qed.

Lemma match_stats_period_app ds u k nl :
  all_digits ds = true ->
  ds <> "" ->
  In (u, k) stats_period_units ->
  nl = "" \/ nl = newline_string ->
  match_stats_period (ds +:+ u +:+ nl) = Some (ds, u).
Proof.
  intros Hds Hne Hu Hnl. unfold match_stats_period.
  assert (Hspan : span_digits (ds +:+ u +:+ nl) = (ds, u +:+ nl)).
  { apply span_digits_app; [done|].
    cbn in Hu. destruct Hnl as [-> | ->];
      repeat (destruct Hu as [[= <- <-]|Hu]; [by vm_compute|]);
      destruct Hu. }
  rewrite Hspan. destruct ds as [|c ds]; [done|].
  cbn in Hu. destruct Hnl as [-> | ->];
    repeat (destruct Hu as [[= <- <-]|Hu]; [by vm_compute|]);
    destruct Hu.
Qed.

Lemma match_stats_period_inv period value unit :
  match_stats_period period = Some (value, unit) ->
  exists k nl,
    period = value +:+ unit +:+ nl
    /\ all_digits value = true /\ value <> ""
    /\ In (unit, k) stats_period_units
    /\ (nl = "" \/ nl = newline_string).
Proof.
  unfold match_stats_period.
  destruct (span_digits period) as [ds rest] eqn:Hspan.
  apply span_digits_inv in Hspan as (-> & Hds & _).
  destruct ds as [|c ds]; [done|].
  destruct rest as [|u rest].
  - intros [= <- <-]. exists 1, "". repeat split; [done..|by left|by left].
  - destruct (is_unit u && at_end rest) eqn:Hunit.
    + intros [= <- <-]. apply andb_true_iff in Hunit as [Hu Hend].
      assert (Hnl : rest = "" \/ rest = newline_string).
      { destruct rest as [|c' [|]]; cbn in Hend; [by left| |done].
        apply bool_decide_eq_true in Hend as ->. by right. }
      unfold is_unit in Hu. apply bool_decide_eq_true in Hu.
      repeat (apply elem_of_cons in Hu as [->|Hu]);
        [exists 3600 | exists 86400 | exists 60 | exists 1 | exists 604800
         | by apply elem_of_nil in Hu];
        exists rest; (repeat split; [done..| |done]); cbn; tauto.
    + destruct (at_end (String u rest)) eqn:Hend; [|done].
      intros [= <- <-]. destruct rest; cbn in Hend; [|done].
      apply bool_decide_eq_true in Hend as ->.
      exists 1, newline_string. repeat split; [done..|by left|by right].
Qed.

(** From the number and the unit to the duration (lines 120-131). *)
Lemma period_duration u k v :
  In (u, k) stats_period_units ->
  0 <= v ->
  res_try
    (res_bind
       (match stats_period_keywords !! (if decide (u = "") then "s" else u) with
        | Some kw => Ok kw
        | None => Raise (KeyError (if decide (u = "") then "s" else u))
        end)
       (fun kw => res_bind (timedelta_of kw v) (fun d => Ok (Some d))))
    is_OverflowError (fun _ => Ok (Some timedelta_max)) =
  Ok (Some (Z.min (v * (k * us_per_second)) timedelta_max)).
Proof.
  intros Hu Hv. cbn in Hu.
  repeat (destruct Hu as [[= <- <-]|Hu];
          [ match goal with
            | |- context [stats_period_keywords !! ?key] =>
                let r := eval vm_compute in (stats_period_keywords !! key) in
                change (stats_period_keywords !! key) with r
            end;
            cbn [res_bind];
            match goal with
            | |- context [timedelta_of ?kw v] =>
                exact (timedelta_of_saturates kw _ v eq_refl Hv
                         ltac:(by vm_compute))
            end
          |]).
  destruct Hu.
Qed.

Lemma int_of_str_within_limit ds :
  (String.length ds <= 640 \/ int_max_str_digits = 0
   \/ String.length ds <= int_max_str_digits)%nat ->
  int_of_str int_max_str_digits ds = Ok (int_of_digits ds).
Proof.
  intros H. unfold int_of_str.
  destruct (640 <? String.length ds)%nat eqn:H1; [|done].
  destruct (0 <? int_max_str_digits)%nat eqn:H2; [|done].
  destruct (int_max_str_digits <? String.length ds)%nat eqn:H3; [|done].
  apply Nat.ltb_lt in H1, H2, H3. lia.
Qed.

(** X9.  A string of digits, followed by nothing or by one of [s], [m],
    [h], [d], [w], and possibly by one final newline, is read as that many
    seconds, minutes, hours, days or weeks; a number without a unit counts
    seconds; a product beyond the largest [timedelta] gives the largest
    [timedelta] instead of an error. *)
Theorem parse_stats_period_accepts ds u k nl :
  all_digits ds = true ->
  ds <> "" ->
  (String.length ds <= 640 \/ int_max_str_digits = 0
   \/ String.length ds <= int_max_str_digits)%nat ->
  In (u, k) stats_period_units ->
  nl = "" \/ nl = newline_string ->
  parse (ds +:+ u +:+ nl) =
    Ok (Some (Z.min (int_of_digits ds * (k * us_per_second)) timedelta_max)).
Proof.
  intros Hds Hne Hlen Hu Hnl. unfold parse_stats_period.
  rewrite (match_stats_period_app ds u k nl Hds Hne Hu Hnl).
  rewrite (int_of_str_within_limit ds Hlen). cbn [res_bind].
  apply period_duration; [done|]. by apply int_of_digits_nonneg.
Qed.

(** X10.  Only such strings are read: whenever [parse_stats_period] returns
    a duration, the period consists of digits, an optional unit among [s],
    [m], [h], [d], [w] and an optional final newline, and the duration is
    the product capped at the largest [timedelta]; it is never negative.
    A period that the pattern does not match, and so every period that is
    not of that shape (the empty string, a unit without a number, an unknown
    unit, any other text), gives [None]. *)
Theorem parse_stats_period_only_well_formed period :
  (forall d,
     parse period = Ok (Some d) ->
     exists ds u k nl,
       period = ds +:+ u +:+ nl
       /\ all_digits ds = true /\ ds <> ""
       /\ In (u, k) stats_period_units
       /\ (nl = "" \/ nl = newline_string)
       /\ d = Z.min (int_of_digits ds * (k * us_per_second)) timedelta_max
       /\ 0 <= d <= timedelta_max)
  /\ (match_stats_period period = None -> parse period = Ok None)
  /\ (~ (exists ds u k nl,
           period = ds +:+ u +:+ nl
           /\ all_digits ds = true /\ ds <> ""
           /\ In (u, k) stats_period_units
           /\ (nl = "" \/ nl = newline_string)) ->
      parse period = Ok None).
Proof.
  split; [|split].
  - intros d. unfold parse_stats_period.
    destruct (match_stats_period period) as [[value unit]|] eqn:Hm; [|done].
    destruct (match_stats_period_inv _ _ _ Hm)
      as (k & nl & -> & Hds & Hne & Hu & Hnl).
    unfold int_of_str.
    destruct (_ && _ && _); [done|]. cbn [res_bind].
    pose proof (int_of_digits_nonneg value Hds) as Hv.
    rewrite (period_duration unit k _ Hu Hv). intros [= <-].
    exists value, unit, k, nl. repeat split; try done.
    + apply Z.min_glb; [|by vm_compute].
      apply Z.mul_nonneg_nonneg; [done|].
      cbn in Hu. repeat (destruct Hu as [[= <- <-]|Hu]; [by vm_compute|]).
      destruct Hu.
    + apply Z.le_min_r.
  - intros Hm. unfold parse_stats_period. by rewrite Hm.
  - intros Hshape. unfold parse_stats_period.
    destruct (match_stats_period period) as [[value unit]|] eqn:Hm; [|done].
    destruct Hshape.
    destruct (match_stats_period_inv _ _ _ Hm)
      as (k & nl & Hp & Hds & Hne & Hu & Hnl).
    by exists value, unit, k, nl.
Qed.

(** X11.  A number with more digits than the interpreter converts (more
    than 640 and more than the configured limit) is not read as a period and
    not answered with [None]: the [ValueError] of [int] leaves
    [parse_stats_period]. *)
Theorem parse_stats_period_digit_limit ds u k nl :
  all_digits ds = true ->
  (640 < String.length ds)%nat ->
  (0 < int_max_str_digits)%nat ->
  (int_max_str_digits < String.length ds)%nat ->
  In (u, k) stats_period_units ->
  nl = "" \/ nl = newline_string ->
  parse (ds +:+ u +:+ nl) = Raise (OtherException "ValueError").
Proof.
  intros Hds H1 H2 H3 Hu Hnl. unfold parse_stats_period.
  assert (Hne : ds <> "") by (intros ->; cbn in H1; lia).
  rewrite (match_stats_period_app ds u k nl Hds Hne Hu Hnl).
  unfold int_of_str.
  apply Nat.ltb_lt in H1, H2, H3. by rewrite H1, H2, H3.
Qed.

(** The five comparisons of [get_interval_from_range], as inequalities. *)
Ltac interval_cases :=
  unfold get_interval_from_range;
  repeat match goal with
         | |- context [if ?b then _ else _] => destruct b eqn:?
         end;
  repeat match goal with
         | H : (_ <=? _) = true |- _ => apply Z.leb_le in H
         | H : (_ <=? _) = false |- _ => apply Z.leb_gt in H
         | H : (_ <? _) = true |- _ => apply Z.ltb_lt in H
         | H : (_ <? _) = false |- _ => apply Z.ltb_ge in H
         end;
  unfold us_per_day, us_per_second in *.

(** X12.  The interval chosen for a date range is always a period that
    [parse_stats_period] reads, of positive length, and among ranges of more
    than one hour a longer range never gets a shorter interval.  A range of
    at most one hour gets [5m] in high fidelity and [15m] otherwise. *)
Theorem get_interval_from_range_monotone r1 r2 high_fidelity :
  3600 * us_per_second < r1 ->
  r1 <= r2 ->
  (exists d1 d2,
     parse (get_interval_from_range r1 high_fidelity) = Ok (Some d1)
     /\ parse (get_interval_from_range r2 high_fidelity) = Ok (Some d2)
     /\ 0 < d1 <= d2)
  /\ (forall r,
        r <= 3600 * us_per_second ->
        get_interval_from_range r high_fidelity =
          if high_fidelity then "5m" else "15m").
Proof.
  intros Hhour Hle. split.
  - interval_cases; try lia;
      (eexists _, _; split; [by vm_compute|]; split; [by vm_compute|]; lia).
  - intros r Hr. interval_cases; (reflexivity || lia).
Qed.

(** X13.  For every date range the high-fidelity interval is at most the
    normal one, and below sixty days the range holds at most 1440
    high-fidelity intervals and at most 720 normal ones. *)
Theorem get_interval_from_range_points r :
  exists dh dl,
    parse (get_interval_from_range r true) = Ok (Some dh)
    /\ parse (get_interval_from_range r false) = Ok (Some dl)
    /\ 0 < dh <= dl
    /\ (r < 60 * us_per_day -> r <= 1440 * dh /\ r <= 720 * dl).
Proof.
  interval_cases;
    (eexists _, _; split; [by vm_compute|]; split; [by vm_compute|]; lia).
Qed.

End DatesFacts.

(** X9 on two days with a final newline, and on a number of weeks beyond
    the largest [timedelta]. *)
Lemma parse_stats_period_accepts_witness :
  parse_stats_period 4300 ("2" +:+ "d" +:+ newline_string) =
    Ok (Some (2 * us_per_day))
  /\ parse_stats_period 4300 ("99999999999999999999" +:+ "w" +:+ "") =
       Ok (Some timedelta_max).
Proof.
  split.
  - apply (parse_stats_period_accepts 4300 "2" "d" 86400 newline_string);
      [reflexivity | discriminate | left; vm_compute; lia
      | cbn; tauto | by right].
  - apply (parse_stats_period_accepts 4300 "99999999999999999999" "w" 604800 "");
      [reflexivity | discriminate | left; vm_compute; lia
      | cbn; tauto | by left].
Defined.

Lemma parse_stats_period_only_well_formed_witness :
  (exists ds u k nl,
     "15m" = ds +:+ u +:+ nl
     /\ In (u, k) stats_period_units
     /\ 900 * us_per_second =
          Z.min (int_of_digits ds * (k * us_per_second)) timedelta_max)
  /\ parse_stats_period 4300 "" = Ok None
  /\ parse_stats_period 4300 "1x" = Ok None.
Proof.
  split; [|split].
  - destruct (proj1 (parse_stats_period_only_well_formed 4300 "15m")
                (900 * us_per_second) eq_refl)
      as (ds & u & k & nl & Hp & _ & _ & Hu & _ & Hd & _).
    exists ds, u, k, nl. repeat split; assumption.
  - apply (proj1 (proj2 (parse_stats_period_only_well_formed 4300 ""))).
    reflexivity.
  - apply (proj1 (proj2 (parse_stats_period_only_well_formed 4300 "1x"))).
    reflexivity.
Defined.

Lemma parse_stats_period_digit_limit_witness :
  parse_stats_period 640 (long_digits +:+ "h" +:+ "") =
    Raise (OtherException "ValueError").
Proof.
  apply (parse_stats_period_digit_limit 640 long_digits "h" 3600 "");
    [by vm_compute | vm_compute; lia | lia | vm_compute; lia
    | cbn; tauto | by left].
Defined.

Lemma get_interval_from_range_monotone_witness :
  exists d1 d2,
    parse_stats_period 4300 (get_interval_from_range (2 * us_per_day) false)
      = Ok (Some d1)
    /\ parse_stats_period 4300 (get_interval_from_range (45 * us_per_day) false)
        = Ok (Some d2)
    /\ 0 < d1 <= d2.
Proof.
  apply (proj1 (get_interval_from_range_monotone 4300 (2 * us_per_day)
                  (45 * us_per_day) false eq_refl ltac:(by vm_compute))).
Defined.

(** A range of one hour gets a longer interval than a range of two
    hours. *)
Example get_interval_from_range_short_ranges :
  parse_stats_period 4300 (get_interval_from_range (3600 * us_per_second) false)
    = Ok (Some (900 * us_per_second))
  /\ parse_stats_period 4300
       (get_interval_from_range (7200 * us_per_second) false)
     = Ok (Some (300 * us_per_second)).
Proof. split; reflexivity. Qed.

(** The intervals at the borders of the five ranges. *)
Example get_interval_from_range_borders :
  map (fun r => get_interval_from_range r false)
    [60 * us_per_day; 60 * us_per_day - 1; 30 * us_per_day;
     30 * us_per_day - 1; us_per_day + 1; us_per_day;
     3600 * us_per_second + 1; 3600 * us_per_second; 0; -1]
  = ["1d"; "4h"; "4h"; "1h"; "1h"; "5m"; "5m"; "15m"; "15m"; "15m"].
Proof. reflexivity. Qed.


(** * Properties of the export processor *)

Section EnvironmentFacts.

Variable Environment_objects : list Environment.
Variable organization_id : Z.

(** The names found in the organization, in table order. *)
Lemma found_names (requested : list string) n :
  n ∈ env_name <$>
        filter (fun e => env_organization_id e = organization_id
                         /\ env_name e ∈ requested) Environment_objects
  <-> n ∈ requested
      /\ exists e, e ∈ Environment_objects
                   /\ env_organization_id e = organization_id
                   /\ env_name e = n.
Proof.
  rewrite list_elem_of_fmap. split.
  - intros (e & -> & He). apply list_elem_of_filter in He as [[Horg Hn] He].
    split; [done|]. by exists e.
  - intros (Hn & e & He & Horg & <-). exists e. split; [done|].
    by apply list_elem_of_filter.
Qed.

(** X14.  Without requested environments the answer is the empty list.
    Otherwise the names of the organization's environments among the
    requested ones are returned when every requested name is the name of an
    environment of this organization, and [ExportError] is raised as soon as
    one requested name is not; an environment of another organization does
    not count. *)
Theorem get_environments_outcome query :
  (requested_environments query = [] ->
   get_environments Environment_objects organization_id query = Ok [])
  /\ (requested_environments query <> [] ->
      (forall n, n ∈ requested_environments query ->
         exists e, e ∈ Environment_objects
                   /\ env_organization_id e = organization_id
                   /\ env_name e = n) ->
      exists names,
        get_environments Environment_objects organization_id query = Ok names
        /\ (forall n, n ∈ names <-> n ∈ requested_environments query))
  /\ (forall n,
        n ∈ requested_environments query ->
        (forall e, e ∈ Environment_objects ->
           env_organization_id e = organization_id -> env_name e <> n) ->
        get_environments Environment_objects organization_id query =
          Raise ExportError).
Proof.
  unfold get_environments.
  destruct (requested_environments query) as [|r rs] eqn:Hreq.
  - split; [done|]. split; [done|]. intros n Hn. by apply elem_of_nil in Hn.
  - split; [done|]. split.
    + intros _ Hall. eexists.
      rewrite decide_True.
      * split; [reflexivity|]. intros n. rewrite found_names.
        split; [by intros [Hn _] | intros Hn; split; [done | by apply Hall]].
      * apply set_eq. intros n. rewrite !elem_of_list_to_set, found_names.
        split; [intros Hn; split; [done | by apply Hall] | by intros [Hn _]].
    + intros n Hn Hnone. rewrite decide_False; [done|].
      intros Heq. assert (Hin : n ∈ list_to_set (C:=gset string) (r :: rs))
        by by apply elem_of_list_to_set.
      rewrite Heq, elem_of_list_to_set, found_names in Hin.
      destruct Hin as (_ & e & He & Horg & Hname). by eapply Hnone.
Qed.

End EnvironmentFacts.

Lemma get_environments_outcome_witness :
  get_environments sample_environments 1 {[ "environment" := QList ["dev"; "prod"] ]}
    = Ok ["prod"; "dev"]
  /\ get_environments sample_environments 1 {[ "environment" := QScalar "staging" ]}
     = Raise ExportError.
Proof.
  destruct (get_environments_outcome sample_environments 1
              {[ "environment" := QScalar "staging" ]}) as (_ & _ & Hmissing).
  split; [reflexivity|].
  apply (Hmissing "staging"); [by vm_compute; left|].
  intros e He Horg Hname. vm_compute in He.
  repeat (apply elem_of_cons in He as [->|He]; [by vm_compute in Horg, Hname|]).
  by apply elem_of_nil in He.
Defined.


(** ** Relations kept by loops *)

Section Keeps.

Context {S : Type} (R : S -> S -> Prop).
Hypothesis R_refl : forall s, R s s.
Hypothesis R_trans : forall s1 s2 s3, R s1 s2 -> R s2 s3 -> R s1 s3.

Lemma keeps_ret {A} (a : A) : keeps R (ret a).
Proof. intros s. apply R_refl. Qed.

Lemma keeps_raise {A} e : keeps R (raise (A:=A) e).
Proof. intros s. apply R_refl. Qed.

Lemma keeps_lift {A} (r : Res A) : keeps R (lift r).
Proof. intros s. apply R_refl. Qed.

Lemma keeps_bind {A B} (c : M S A) (k : A -> M S B) :
  keeps R c -> (forall a, keeps R (k a)) -> keeps R (bind c k).
Proof.
  intros Hc Hk s. unfold bind. specialize (Hc s).
  destruct (c s) as [[a|e] s1]; cbn [snd] in *; [|done].
  eapply R_trans; [exact Hc | apply Hk].
Qed.

Lemma keeps_for_each {A} (l : list A) (body : A -> M S unit) :
  (forall x, x ∈ l -> keeps R (body x)) -> keeps R (for_each l body).
Proof.
  induction l as [|x l IH]; intros Hbody; cbn [for_each].
  - apply keeps_ret.
  - apply keeps_bind; [apply Hbody; by left|].
    intros _. apply IH. intros y Hy. apply Hbody. by right.
Qed.

Lemma keeps_map_m {A B} (f : A -> M S B) (l : list A) :
  (forall x, x ∈ l -> keeps R (f x)) -> keeps R (map_m f l).
Proof.
  induction l as [|x l IH]; intros Hf; cbn [map_m].
  - apply keeps_ret.
  - apply keeps_bind; [apply Hf; by left|]. intros y.
    apply keeps_bind; [apply IH; intros z Hz; apply Hf; by right|].
    intros ys. apply keeps_ret.
Qed.

End Keeps.

Section RowFacts.

(** Reading a row and then acting on it keeps a relation when the action
    does, for the row that is there. *)
Lemma keeps_load_row {A} (R : relation (gmap loc (gmap string Cell))) l
    (k : gmap string Cell -> M (gmap loc (gmap string Cell)) A) :
  (forall h, R h h) ->
  (forall h row, h !! l = Some row -> R h (k row h).2) ->
  keeps R (bind (load_row l) k).
Proof.
  intros Hrefl Hk h. unfold bind, load_row.
  destruct (h !! l) as [row|] eqn:Hl; cbn [snd]; [by apply Hk | apply Hrefl].
Qed.

Lemma rows_changed_within_refl L W h : rows_changed_within L W h h.
Proof. split; [done|]. split; [done|]. intros l row row' key H1 H2 _. congruence. Qed.

Lemma rows_changed_within_trans L W h1 h2 h3 :
  rows_changed_within L W h1 h2 ->
  rows_changed_within L W h2 h3 ->
  rows_changed_within L W h1 h3.
Proof.
  intros (Hd1 & Ho1 & Hk1) (Hd2 & Ho2 & Hk2). split; [congruence|].
  split; [intros l Hl; rewrite Ho2, Ho1; done|].
  intros l row row3 key H1 H3 HW.
  assert (Hin : is_Some (h2 !! l)).
  { apply elem_of_dom. rewrite Hd1. apply elem_of_dom. by eexists. }
  destruct Hin as [row2 H2].
  rewrite (Hk2 l row2 row3 key H2 H3 HW). by apply (Hk1 l row row2 key).
Qed.

(** Writing one permitted column of one permitted row. *)
Lemma rows_changed_within_store L (W : string -> Prop) h l row key c :
  l ∈ L -> W key -> h !! l = Some row ->
  rows_changed_within L W h (<[l := <[key := c]> row]> h).
Proof.
  intros HL HW Hl. split; [|split].
  - apply dom_insert_lookup_L. by eexists.
  - intros l' Hl'. apply lookup_insert_ne. by intros ->.
  - intros l' r r' key' Hr Hr' HW'.
    destruct (decide (l = l')) as [<-|Hne].
    + rewrite lookup_insert_eq in Hr'. simplify_eq.
      apply lookup_insert_ne. by intros ->.
    + rewrite lookup_insert_ne in Hr' by done. congruence.
Qed.




End RowFacts.

(** ** [handle_fields] *)

Section HandleFieldsFacts.

Variable Group_objects_filter :
  list Cell -> list Z -> Z -> Res (list (Z * string)).
Variable SPAN_STATUS_CODE_TO_NAME : gmap Z string.

Local Abbreviation handle :=
  (handle_fields Group_objects_filter SPAN_STATUS_CODE_TO_NAME).

Lemma bind_ok_inv {S A B} (c : M S A) (k : A -> M S B) s b s' :
  bind c k s = (Ok b, s') ->
  exists a s1, c s = (Ok a, s1) /\ k a s1 = (Ok b, s').
Proof.
  unfold bind. destruct (c s) as [[a|e] s1]; [|done]. intros H. by exists a, s1.
Qed.

Lemma keeps_dict_getitem {S} (R : S -> S -> Prop) (row : gmap string Cell) key :
  (forall s, R s s) -> keeps R (dict_getitem (S:=S) row key id).
Proof.
  intros Hrefl s. unfold dict_getitem. destruct (row !! key); apply Hrefl.
Qed.

Lemma keeps_load_only (R : relation (gmap loc (gmap string Cell))) l :
  (forall h, R h h) -> keeps R (load_row l).
Proof. intros Hrefl h. unfold load_row. destruct (h !! l); apply Hrefl. Qed.

Lemma handle_fields_keeps self result_list :
  keeps (rows_changed_within result_list (written_columns self))
    (handle self result_list).
Proof.
  set (R := rows_changed_within result_list (written_columns self)).
  assert (Hrefl : forall h, R h h) by apply rows_changed_within_refl.
  assert (Htrans : forall h1 h2 h3, R h1 h2 -> R h2 h3 -> R h1 h3)
    by apply rows_changed_within_trans.
  unfold handle_fields.
  apply keeps_bind; [done..| |intros _].
  { case_bool_decide; [|by apply keeps_ret].
    apply keeps_bind; [done..| |intros issue_ids].
    - apply keeps_map_m; [done..|]. intros l _.
      apply keeps_bind; [done..|by apply keeps_load_only|]. intros row.
      apply keeps_bind; [done..|by apply keeps_dict_getitem|]. intros c.
      destruct (hashable c); [by apply keeps_ret | by apply keeps_raise].
    - apply keeps_bind; [done..|by apply keeps_lift|]. intros groups.
      apply keeps_for_each; [done..|]. intros l Hl.
      apply keeps_load_row; [done|]. intros h row Hrow.
      destruct (row !! "issue.id") as [c|]; [|apply Hrefl].
      unfold bind, lift. destruct (dict_get_by_cell _ c _) as [v|e];
        [|apply Hrefl].
      apply rows_changed_within_store; [done| |done]. by left. }
  apply keeps_bind; [done..| |intros _].
  { case_bool_decide; [|by apply keeps_ret].
    apply keeps_for_each; [done..|]. intros l Hl.
    apply keeps_load_row; [done|]. intros h row Hrow.
    destruct (row !! "transaction.status") as [c|]; [|apply Hrefl].
    unfold bind, lift. destruct (dict_get_by_cell _ c _) as [v|e];
      [|apply Hrefl].
    apply rows_changed_within_store; [done| |done]. right. by left. }
  apply keeps_bind; [done..| |intros _; by apply keeps_ret].
  destruct (equation_aliases self) as [|item items] eqn:Hitems;
    [by apply keeps_ret|].
  apply keeps_for_each; [done..|]. intros l Hl.
  apply keeps_for_each; [done..|]. intros it Hit.
  apply keeps_load_row; [done|]. intros h row Hrow.
  apply rows_changed_within_store; [done| |done].
  right. right. rewrite Hitems. by apply list_elem_of_fmap_2.
Qed.

(** X15.  However [handle_fields] ends, it has created and removed no row,
    has left every row outside the list it was given as it was, and within
    the rows of that list has changed no column other than [issue],
    [transaction.status] and the equations; and when it returns, it returns
    the references it was given: the copy of line 106 is a copy of the list,
    not of the rows, so the caller's rows are the ones that are changed. *)
Theorem handle_fields_frame self result_list h :
  dom (handle_fields Group_objects_filter SPAN_STATUS_CODE_TO_NAME self
         result_list h).2 = dom h
  /\ (forall l,
        l ∉ result_list ->
        (handle_fields Group_objects_filter SPAN_STATUS_CODE_TO_NAME self
           result_list h).2 !! l = h !! l)
  /\ (forall l row row' key,
        h !! l = Some row ->
        (handle_fields Group_objects_filter SPAN_STATUS_CODE_TO_NAME self
           result_list h).2 !! l = Some row' ->
        key <> "issue" -> key <> "transaction.status" ->
        key ∉ (equation_aliases self).*2 ->
        row' !! key = row !! key)
  /\ (forall out,
        (handle_fields Group_objects_filter SPAN_STATUS_CODE_TO_NAME self
           result_list h).1 = Ok out ->
        out = result_list).
Proof.
  destruct (handle_fields_keeps self result_list h) as (Hdom & Hother & Hkeys).
  split; [exact Hdom|]. split; [exact Hother|]. split.
  - intros l row row' key Hrow Hrow' H1 H2 H3.
    apply (Hkeys l row row' key Hrow Hrow'). unfold written_columns. tauto.
  - intros out Hout.
    destruct (handle self result_list h) as [r h'] eqn:Hrun. cbn in Hout.
    subst r. unfold handle_fields in Hrun.
    apply bind_ok_inv in Hrun as (? & ? & _ & Hrun).
    apply bind_ok_inv in Hrun as (? & ? & _ & Hrun).
    apply bind_ok_inv in Hrun as (? & ? & _ & Hrun).
    by injection Hrun as <- _.
Qed.

(** The comprehension of line 109 stops at the first row without an
    [issue.id]. *)
Lemma issue_ids_missing result_list : forall h,
  (forall l, l ∈ result_list ->
     exists row, h !! l = Some row
                 /\ forall c, row !! "issue.id" = Some c -> hashable c = true) ->
  (exists l row,
     l ∈ result_list /\ h !! l = Some row /\ row !! "issue.id" = None) ->
  map_m (fun result =>
           row <- load_row result;;
           c <- dict_getitem row "issue.id" id;;
           if hashable c then ret c else raise TypeError)
    result_list h = (Raise (KeyError "issue.id"), h).
Proof.
  induction result_list as [|l rest IH]; intros h Hwf (l0 & row0 & Hl0 & Hrow0 & Hno).
  - by apply elem_of_nil in Hl0.
  - destruct (Hwf l ltac:(by left)) as (row & Hrow & Hhash).
    cbn [map_m]. unfold bind at 1, bind at 1, load_row. rewrite Hrow.
    unfold bind at 1, dict_getitem.
    destruct (row !! "issue.id") as [c|] eqn:Hc; [|reflexivity].
    unfold ret at 1. rewrite (Hhash c eq_refl). unfold ret at 1.
    unfold bind at 1. rewrite IH; [reflexivity| |].
    + intros l' Hl'. apply Hwf. by right.
    + exists l0, row0. split; [|done].
      apply elem_of_cons in Hl0 as [->|Hl0]; [congruence|done].
Qed.

(** X16.  When [issue] is among the header fields and some row has no
    [issue.id] column (the others holding values that can be hashed),
    [handle_fields] raises [KeyError] for [issue.id] and has changed no row,
    although the loop of lines 118-120 would have skipped such a row. *)
Theorem handle_fields_missing_issue_id self result_list h :
  "issue" ∈ header_fields self ->
  (forall l, l ∈ result_list ->
     exists row, h !! l = Some row
                 /\ forall c, row !! "issue.id" = Some c -> hashable c = true) ->
  (exists l row,
     l ∈ result_list /\ h !! l = Some row /\ row !! "issue.id" = None) ->
  handle_fields Group_objects_filter SPAN_STATUS_CODE_TO_NAME self
    result_list h = (Raise (KeyError "issue.id"), h).
Proof.
  intros Hissue Hwf Hmissing. unfold handle_fields.
  rewrite (bool_decide_eq_true_2 _ Hissue).
  unfold bind at 1, bind at 1.
  by rewrite (issue_ids_missing result_list h Hwf Hmissing).
Qed.




End HandleFieldsFacts.

(** X16 on two rows, the second of which has no [issue.id]. *)
Lemma handle_fields_missing_issue_id_witness :
  handle_fields no_groups ∅ issue_processor [0%nat; 1%nat] sample_rows =
    (Raise (KeyError "issue.id"), sample_rows).
Proof.
  apply (handle_fields_missing_issue_id no_groups ∅ issue_processor
           [0%nat; 1%nat] sample_rows).
  - vm_compute. by right; left.
  - intros l Hl.
    apply elem_of_cons in Hl as [->|Hl];
      [|apply elem_of_cons in Hl as [->|Hl]; [|by apply elem_of_nil in Hl]].
    + eexists. split; [reflexivity|]. intros c Hc. vm_compute in Hc.
      by injection Hc as <-.
    + eexists. split; [reflexivity|]. intros c Hc. vm_compute in Hc.
      discriminate.
  - exists 1%nat. eexists. split; [by right; left|]. split; reflexivity.
Defined.


(** The rows after the equations have been mapped back. *)
Example handle_fields_equations_example :
  (handle_fields no_groups ∅ equation_processor [0%nat; 1%nat] sample_rows).2
    !! 1%nat =
  Some {[ "title" := CStr "no issue"; "count() / 2" := CNone ]}.
Proof. by vm_compute. Qed.

(** With [issue] among the header fields and an [issue.id] in every row,
    a row whose group is not found is labelled [unknown]. *)
Example handle_fields_unknown_issue :
  handle_fields no_groups ∅ issue_processor [0%nat] sample_rows =
    (Ok [0%nat],
     <[0%nat := {[ "issue.id" := CInt 7; "title" := CStr "boom";
                   "issue" := CStr "unknown" ]}]> sample_rows).
Proof. by vm_compute. Qed.
